(** * MTG card price tracker: the cache-and-session access layer

    A shallow embedding of [streamlit_app.py] (the full dashboard) and of
    the minimal variant kept next to it.  The script is a Streamlit page:
    every user interaction re-runs it from top to bottom.  What is modelled
    is the part of the script that carries state and policy:

    - [get_snowflake_session], the two-stage session provider;
    - the three query operations [search_cards], [get_card_prices] and
      [get_price_after_launch], each wrapped by [st.cache_data(ttl=86400)];
    - the top-level render pass that calls them.

    The warehouse, the secrets store, the wall clock and the widgets are
    collaborators outside the script; they are taken as an oracle record
    ([Env], [Widgets]) so that every statement below holds for every
    behaviour they can show. *)

From Stdlib Require Import QArith Lqa Ascii String.
From stdpp Require Import gmap strings list.

Local Open Scope string_scope.
Local Open Scope list_scope.

(** ** Data model *)

(** A cell of a tabular result. *)
Inductive Value :=
| VString (s : string)
| VNumber (q : Q)
| VDate (d : string)
| VNull.

(** A pandas [DataFrame] as the script uses it: named columns and rows. *)
Record DataFrame := mkDataFrame {
  columns : list string;
  rows : list (list Value)
}.

(** [pd.DataFrame()]: no column, no row. *)
Definition pd_DataFrame : DataFrame := {| columns := []; rows := [] |}.

(** [df.empty]: true as soon as one of the two axes has length zero. *)
Definition df_empty (df : DataFrame) : bool :=
  match columns df, rows df with
  | [], _ => true
  | _, [] => true
  | _, _ => false
  end.

(** An opaque session handle. *)
Record Session := mkSession { handle : nat }.

(** The dictionary built at lines 20-27 of [get_snowflake_session]. *)
Record ConnectionParameters := mkConnectionParameters {
  cp_account : string;
  cp_user : string;
  cp_password : string;
  cp_warehouse : string;
  cp_database : string;
  cp_schema : string
}.

(** What the script can observe of the outside world during one call. *)
Record Env := mkEnv {
  (** [get_active_session()]: [None] when it raises. *)
  active_session : option Session;
  (** [st.secrets["snowflake"]]: [None] when the section is missing. *)
  secrets_snowflake : option (gmap string string);
  (** [str(e)] of the exception a missing secret raises. *)
  secret_error : string -> string;
  (** [Session.builder.configs(p).create()]: a handle, or [str(e)]. *)
  session_create : ConnectionParameters -> Session + string;
  (** [session.sql(q).to_pandas()]: a table, or [str(e)]. *)
  run_sql : Session -> string -> DataFrame + string;
  (** The clock the cache reads, in seconds; one reading per call. *)
  now : Q;
  (** [s.lower()]: the lower-casing of Python's [str], a builtin that works
      on all of Unicode; nothing is assumed of it. *)
  py_lower : string -> string
}.

(** Calls that leave the process, in the order they are made. *)
Inductive Event :=
| EvGetActive
| EvCreate (p : ConnectionParameters)
| EvSql (s : Session) (q : string).

(** The messages the modelled lines of the script write to the page, in
    order.  What the library or the rendering widgets add to the page is
    not recorded. *)
Inductive UiEvent :=
| UiError (msg : string)
| UiSuccess (msg : string)
| UiWarning (msg : string)
| UiInfo (msg : string).

(** Modelled from the spec: the cache key of [st.cache_data], a
    deterministic function of the operation name and its ordered parameter
    list; distinct parameters give distinct keys.  One table serves all
    decorated functions. *)
Definition CacheKey : Type := string * list string.

Record State := mkState {
  cache : gmap CacheKey (DataFrame * Q);
  ui : list UiEvent;
  trace : list Event;
  (** [st.session_state.selected_card_id]; [None] while the key is absent *)
  selected_card_id : option string
}.

Definition set_cache (c : gmap CacheKey (DataFrame * Q)) (st : State) : State :=
  {| cache := c; ui := ui st; trace := trace st;
     selected_card_id := selected_card_id st |}.

Definition add_ui (e : UiEvent) (st : State) : State :=
  {| cache := cache st; ui := ui st ++ [e]; trace := trace st;
     selected_card_id := selected_card_id st |}.

Definition add_event (e : Event) (st : State) : State :=
  {| cache := cache st; ui := ui st; trace := trace st ++ [e];
     selected_card_id := selected_card_id st |}.

Definition set_selected (id : option string) (st : State) : State :=
  {| cache := cache st; ui := ui st; trace := trace st;
     selected_card_id := id |}.

(** ** The effects of the script as a monad

    A computation reads the oracle, threads the state, and either returns
    or leaves the pass: [st.stop()] and [st.rerun()] raise control
    exceptions that no [except Exception] clause of the script catches;
    [Crash] is an exception that escapes to the page. *)

Inductive Outcome (A : Type) :=
| Ret (a : A)
| Stop
| Rerun
| Crash.
Arguments Ret {A} a.
Arguments Stop {A}.
Arguments Rerun {A}.
Arguments Crash {A}.

Definition App (A : Type) : Type := Env -> State -> Outcome A * State.

#[global] Instance app_ret : MRet App := fun A a _ st => (Ret a, st).

#[global] Instance app_bind : MBind App := fun A B f m env st =>
  match m env st with
  | (Ret a, st') => f a env st'
  | (Stop, st') => (Stop, st')
  | (Rerun, st') => (Rerun, st')
  | (Crash, st') => (Crash, st')
  end.

Definition ask : App Env := fun env st => (Ret env, st).
Definition modify (f : State -> State) : App unit := fun _ st => (Ret tt, f st).
Definition get_state : App State := fun _ st => (Ret st, st).

Definition st_error (msg : string) : App unit := modify (add_ui (UiError msg)).
Definition st_success (msg : string) : App unit := modify (add_ui (UiSuccess msg)).
Definition st_warning (msg : string) : App unit := modify (add_ui (UiWarning msg)).
Definition st_info (msg : string) : App unit := modify (add_ui (UiInfo msg)).
Definition st_stop {A} : App A := fun _ st => (Stop, st).
Definition st_rerun {A} : App A := fun _ st => (Rerun, st).
Definition raise {A} : App A := fun _ st => (Crash, st).

(** ** Session provider *)

(** [get_active_session()] *)
Definition get_active_session : App (option Session) :=
  modify (add_event EvGetActive);; env ← ask; mret (active_session env).

(** [st.secrets["snowflake"][k]] *)
Definition secret (env : Env) (k : string) : string + string :=
  match secrets_snowflake env with
  | None => inr (secret_error env "snowflake")
  | Some sec =>
      match sec !! k with
      | Some v => inl v
      | None => inr (secret_error env k)
      end
  end.

(** The dictionary literal of lines 20-27; Python evaluates the six
    lookups in the order written and the first missing one raises. *)
Definition connection_parameters (env : Env) : ConnectionParameters + string :=
  match secret env "account" with inr e => inr e | inl account =>
  match secret env "user" with inr e => inr e | inl user =>
  match secret env "password" with inr e => inr e | inl password =>
  match secret env "warehouse" with inr e => inr e | inl warehouse =>
  match secret env "database" with inr e => inr e | inl database =>
  match secret env "schema" with inr e => inr e | inl schema =>
    inl {| cp_account := account; cp_user := user; cp_password := password;
           cp_warehouse := warehouse; cp_database := database;
           cp_schema := schema |}
  end end end end end end.

(** [Session.builder.configs(p).create()] *)
Definition Session_create (p : ConnectionParameters) : App (Session + string) :=
  modify (add_event (EvCreate p));; env ← ask; mret (session_create env p).

Definition active_label : string := "Connected using active Snowflake session".
Definition credentials_label : string := "Connected to Snowflake using credentials".
Definition connect_failed (e : string) : string :=
  "Failed to connect to Snowflake: " +:+ e.

Definition get_snowflake_session : App (Session * string) :=
  a ← get_active_session;
  match a with
  | Some session => mret (session, active_label)
  | None =>
      env ← ask;
      match connection_parameters env with
      | inr e => st_error (connect_failed e);; st_stop
      | inl p =>
          r ← Session_create p;
          match r with
          | inl session => mret (session, credentials_label)
          | inr e => st_error (connect_failed e);; st_stop
          end
      end
  end.

(** ** Result cache *)

(** Modelled from the spec: the body of the [st.cache_data] decorator and
    of [st.cache_data.clear], which belong to the Streamlit library and are
    not in the script.  An entry is (key, stored result, insertion
    timestamp); it is valid for reads only while
    [now - insertion timestamp < TTL]; the check is made at read time. *)
Definition ttl_valid (ttl ins t : Q) : bool := negb (Qle_bool ttl (t - ins)).

Definition cache_read (ttl t : Q) (k : CacheKey)
    (c : gmap CacheKey (DataFrame * Q)) : option DataFrame :=
  match c !! k with
  | Some (df, ins) => if ttl_valid ttl ins t then Some df else None
  | None => None
  end.

(** Modelled from the spec: on hit, the stored result is returned and the
    function is not run; on miss the function runs, and when it returns,
    (key, result, now) is stored; when it does not return, nothing is
    stored. *)
Definition cache_data (ttl : Q) (k : CacheKey) (f : App DataFrame) : App DataFrame :=
  fun env st =>
    match cache_read ttl (now env) k (cache st) with
    | Some df => (Ret df, st)
    | None =>
        match f env st with
        | (Ret df, st') =>
            (Ret df, set_cache (<[k := (df, now env)]> (cache st')) st')
        | (o, st') => (o, st')
        end
    end.

(** Modelled from the spec: [st.cache_data.clear()] removes every entry. *)
Definition cache_data_clear : App unit := modify (set_cache ∅).

(** ** Query operations *)

(** [session.sql(query).to_pandas()] *)
Definition session_sql (session : Session) (query : string) : App (DataFrame + string) :=
  modify (add_event (EvSql session query));; env ← ask; mret (run_sql env session query).

(** The [ttl=86400] of the three decorators, in seconds. *)
Definition search_cards_ttl : Q := 86400.
Definition get_card_prices_ttl : Q := 86400.
Definition get_price_after_launch_ttl : Q := 86400.

Definition search_query (search_term1 search_term2 : string) : string :=
  "SELECT * FROM TABLE(MTG_COST.PUBLIC.GET_CARD_ID('" +:+ search_term1 +:+
  "', '" +:+ search_term2 +:+ "')) LIMIT 1000".

Definition prices_query (card_id : string) : string :=
  "SELECT * FROM TABLE(MTG_COST.PUBLIC.GET_CARD_PRICES('" +:+ card_id +:+ "'))".

Definition launch_query : string := "SELECT * FROM price_after_launch".

(** The functions as written, before decoration. *)
Definition search_cards_body (search_term1 search_term2 : string) : App DataFrame :=
  '(session, _) ← get_snowflake_session;
  r ← session_sql session (search_query search_term1 search_term2);
  match r with
  | inl search_df => mret search_df
  | inr e => st_error ("Error searching cards: " +:+ e);; mret pd_DataFrame
  end.

Definition get_card_prices_body (card_id : string) : App DataFrame :=
  '(session, _) ← get_snowflake_session;
  r ← session_sql session (prices_query card_id);
  match r with
  | inl df => mret df
  | inr e => st_error ("Error querying data: " +:+ e);; mret pd_DataFrame
  end.

Definition get_price_after_launch_body : App DataFrame :=
  '(session, _) ← get_snowflake_session;
  r ← session_sql session launch_query;
  match r with
  | inl df => mret df
  | inr e =>
      st_error ("Error querying price after launch data: " +:+ e);;
      mret pd_DataFrame
  end.

Definition search_cards_key (search_term1 search_term2 : string) : CacheKey :=
  ("search_cards", [search_term1; search_term2]).
Definition get_card_prices_key (card_id : string) : CacheKey :=
  ("get_card_prices", [card_id]).
Definition get_price_after_launch_key : CacheKey :=
  ("get_price_after_launch", []).

(** The decorated functions the rest of the script calls. *)
Definition search_cards (search_term1 search_term2 : string) : App DataFrame :=
  cache_data search_cards_ttl (search_cards_key search_term1 search_term2)
    (search_cards_body search_term1 search_term2).

Definition get_card_prices (card_id : string) : App DataFrame :=
  cache_data get_card_prices_ttl (get_card_prices_key card_id)
    (get_card_prices_body card_id).

Definition get_price_after_launch : App DataFrame :=
  cache_data get_price_after_launch_ttl get_price_after_launch_key
    get_price_after_launch_body.

(** The three operations under one name, for statements about all of them. *)
Inductive Operation :=
| SearchCards (search_term1 search_term2 : string)
| GetCardPrices (card_id : string)
| GetPriceAfterLaunch.

Definition op_key (op : Operation) : CacheKey :=
  match op with
  | SearchCards a b => search_cards_key a b
  | GetCardPrices c => get_card_prices_key c
  | GetPriceAfterLaunch => get_price_after_launch_key
  end.

Definition op_ttl (op : Operation) : Q :=
  match op with
  | SearchCards _ _ => search_cards_ttl
  | GetCardPrices _ => get_card_prices_ttl
  | GetPriceAfterLaunch => get_price_after_launch_ttl
  end.

Definition op_query (op : Operation) : string :=
  match op with
  | SearchCards a b => search_query a b
  | GetCardPrices c => prices_query c
  | GetPriceAfterLaunch => launch_query
  end.

Definition op_error (op : Operation) (e : string) : string :=
  match op with
  | SearchCards _ _ => "Error searching cards: " +:+ e
  | GetCardPrices _ => "Error querying data: " +:+ e
  | GetPriceAfterLaunch => "Error querying price after launch data: " +:+ e
  end.

Definition op_body (op : Operation) : App DataFrame :=
  match op with
  | SearchCards a b => search_cards_body a b
  | GetCardPrices c => get_card_prices_body c
  | GetPriceAfterLaunch => get_price_after_launch_body
  end.

Definition call (op : Operation) : App DataFrame :=
  match op with
  | SearchCards a b => search_cards a b
  | GetCardPrices c => get_card_prices c
  | GetPriceAfterLaunch => get_price_after_launch
  end.

(** ** The render pass *)

(** [search_term1_raw.lower()] *)
Definition str_lower (s : string) : App string :=
  env ← ask; mret (py_lower env s).

(** Truth value of a Python string. *)
Definition truthy (s : string) : bool :=
  match s with EmptyString => false | String _ _ => true end.

(** What the table of search results (lines 138-172) leaves the script
    with: an exception, no selected row, or the [ID] cell of the selected
    row. *)
Inductive TableEvent :=
| TableRaised
| NoSelection
| RowSelected (id : string).

(** The widgets of one pass, as the user left them. *)
Record Widgets := mkWidgets {
  search_term1_raw : string;
  search_term2_raw : string;
  search_button : bool;
  clear_cache_button : bool;
  (** the "Card ID" box: from its default value to its content *)
  card_id_input : string -> string;
  table_event : DataFrame -> TableEvent;
  (** lines 205-284 and 302-328: [false] when an exception escapes *)
  prices_view : DataFrame -> bool;
  launch_view : DataFrame -> bool
}.

Definition default_card_id : string := "ecc1027a-8c07-44a0-bdde-fa2844cff694".

(** Lines 9-10, on the state: the state a pass works on. *)
Definition started (st : State) : State :=
  match selected_card_id st with
  | None => set_selected (Some default_card_id) st
  | Some _ => st
  end.

Definition init_session_state : App unit := modify started.

(** [st.session_state.selected_card_id] *)
Definition read_selected : App string :=
  st ← get_state;
  match selected_card_id st with
  | Some id => mret id
  | None => raise
  end.

Definition search_section (w : Widgets) (search_term1 search_term2 : string) : App unit :=
  if search_button w || (truthy search_term1 && truthy search_term2) then
    search_df ← search_cards search_term1 search_term2;
    if negb (df_empty search_df) then
      match table_event w search_df with
      | TableRaised => raise
      | NoSelection =>
          st_info "💡 Click on any row to select that card for price tracking below"
      | RowSelected id =>
          sel ← read_selected;
          if decide (sel = id) then
            st_info "💡 Click on any row to select that card for price tracking below"
          else
            modify (set_selected (Some id));;
            st_success ("✅ Selected card ID: " +:+ id);;
            st_rerun
      end
    else st_warning "No cards found matching your search terms."
  else mret tt.

Definition price_section (w : Widgets) : App unit :=
  sel ← read_selected;
  let card_id := card_id_input w sel in
  (if decide (card_id = sel) then mret tt
   else modify (set_selected (Some card_id)));;
  if truthy card_id then
    df ← get_card_prices card_id;
    if negb (df_empty df) then
      if prices_view w df then mret tt else raise
    else st_warning "No data found for this card ID."
  else st_info "Please enter a card ID to view price data.".

Definition launch_section (w : Widgets) : App unit :=
  launch_df ← get_price_after_launch;
  if negb (df_empty launch_df) then
    if launch_view w launch_df then mret tt else raise
  else st_warning "No price after launch data available.".

(** The script from top to bottom. *)
Definition render (w : Widgets) : App unit :=
  init_session_state;;
  '(session, connection_message) ← get_snowflake_session;
  st_success connection_message;;
  search_term1 ← str_lower (search_term1_raw w);
  search_term2 ← str_lower (search_term2_raw w);
  (if clear_cache_button w then
     cache_data_clear;; st_success "Cache cleared!";; st_rerun
   else mret tt);;
  search_section w search_term1 search_term2;;
  price_section w;;
  launch_section w.

(** ** The minimal variant of the script *)

Module Minimal.

Definition search_query (search_term1 search_term2 : string) : string :=
  "SELECT * FROM TABLE(MTG_COST.PUBLIC.GET_CARD_ID('" +:+ search_term1 +:+
  "', '" +:+ search_term2 +:+ "')) LIMIT 100".

Definition prices_query (card_id : string) : string :=
  "SELECT * FROM TABLE(MTG_COST.PUBLIC.GET_CARD_PRICES('" +:+ card_id +:+ "'))".

(** The widgets of one pass of the minimal page.  The two views stand
    for the lines that display a non-empty result (44-50 and 79-157); they
    sit inside the [try] blocks, so an exception they raise is caught:
    [Some e] gives its [str(e)]. *)
Record Widgets := mkWidgets {
  search_term1 : string;
  search_term2 : string;
  search_button : bool;
  card_id : string;
  table_view : DataFrame -> option string;
  prices_view : DataFrame -> option string
}.

(** Lines 36-55. *)
Definition search_block (w : Widgets) (session : Session) : App unit :=
  if search_button w || (truthy (search_term1 w) && truthy (search_term2 w)) then
    r ← session_sql session (search_query (search_term1 w) (search_term2 w));
    match r with
    | inl search_df =>
        if negb (df_empty search_df) then
          match table_view w search_df with
          | None =>
              st_info "💡 Copy a card ID from the table above to use in the price tracker below"
          | Some e => st_error ("Error searching cards: " +:+ e)
          end
        else st_warning "No cards found matching your search terms."
    | inr e => st_error ("Error searching cards: " +:+ e)
    end
  else mret tt.

(** Lines 69-167. *)
Definition price_block (w : Widgets) (session : Session) : App unit :=
  if truthy (card_id w) then
    r ← session_sql session (prices_query (card_id w));
    match r with
    | inl df =>
        if negb (df_empty df) then
          match prices_view w df with
          | None => mret tt
          | Some e => st_error ("Error querying data: " +:+ e)
          end
        else st_warning "No data found for this card ID."
    | inr e => st_error ("Error querying data: " +:+ e)
    end
  else st_info "Please enter a card ID to view price data.".

(** The minimal page from top to bottom: line 15 asks for the ambient
    session outside any [try]. *)
Definition render (w : Widgets) : App unit :=
  a ← get_active_session;
  match a with
  | None => raise
  | Some session => search_block w session;; price_block w session
  end.

End Minimal.

(** ** Notions used in the statements *)

(** Kinds of events, for counting attempts. *)
Definition is_active_attempt (e : Event) : bool :=
  match e with EvGetActive => true | _ => false end.
Definition is_create_attempt (e : Event) : bool :=
  match e with EvCreate _ => true | _ => false end.
Definition is_sql (e : Event) : bool :=
  match e with EvSql _ _ => true | _ => false end.

Definition count (p : Event -> bool) (evs : list Event) : nat :=
  length (List.filter p evs).

(** The four ways a call of [get_snowflake_session] can go. *)
Inductive session_result (env : Env) (st : State) :
    Outcome (Session * string) * State -> Prop :=
| SrActive s :
    active_session env = Some s ->
    session_result env st (Ret (s, active_label), add_event EvGetActive st)
| SrCredentials p s :
    active_session env = None ->
    connection_parameters env = inl p ->
    session_create env p = inl s ->
    session_result env st
      (Ret (s, credentials_label), add_event (EvCreate p) (add_event EvGetActive st))
| SrNoConfig e :
    active_session env = None ->
    connection_parameters env = inr e ->
    session_result env st
      (Stop, add_ui (UiError (connect_failed e)) (add_event EvGetActive st))
| SrCreateFails p e :
    active_session env = None ->
    connection_parameters env = inl p ->
    session_create env p = inr e ->
    session_result env st
      (Stop, add_ui (UiError (connect_failed e))
               (add_event (EvCreate p) (add_event EvGetActive st))).

(** The fallback path (lines 19-29) as a value: its handle, or [str(e)]. *)
Definition fallback (env : Env) : Session + string :=
  match connection_parameters env with
  | inr e => inr e
  | inl p => session_create env p
  end.

(** The events a call adds to a trace that it extends. *)
Definition new_events (st st' : State) : list Event :=
  drop (length (trace st)) (trace st').

(** A computation that only ever adds to the trace. *)
Definition appends {A} (m : App A) : Prop :=
  forall env st, exists evs, trace (m env st).2 = trace st ++ evs.

(** ** Concrete worlds, for the examples *)

(** The lower-casing of the example worlds: [A]-[Z] go to [a]-[z] and
    every other character is kept, which is what [str.lower()] does on the
    ASCII text the examples use. *)
Definition ascii_lower_char (c : Ascii.ascii) : Ascii.ascii :=
  let n := N_of_ascii c in
  if ((65 <=? n) && (n <=? 90))%N then ascii_of_N (n + 32) else c.

Fixpoint ascii_lower (s : string) : string :=
  match s with
  | EmptyString => EmptyString
  | String c s' => String (ascii_lower_char c) (ascii_lower s')
  end.

(** A fresh process: nothing cached, nothing shown, nothing selected. *)
Definition st0 : State :=
  {| cache := ∅; ui := []; trace := []; selected_card_id := None |}.

Definition ambient : Session := mkSession 1.
Definition built : Session := mkSession 2.

Definition vivi_table : DataFrame :=
  {| columns := ["NAME"; "ID"];
     rows := [[VString "Vivi Ornitier"; VString default_card_id]] |}.

Definition the_secrets : gmap string string :=
  list_to_map [("account", "acct"); ("user", "app"); ("password", "pw");
               ("warehouse", "wh"); ("database", "MTG_COST"); ("schema", "PUBLIC")].

Definition the_parameters : ConnectionParameters :=
  {| cp_account := "acct"; cp_user := "app"; cp_password := "pw";
     cp_warehouse := "wh"; cp_database := "MTG_COST"; cp_schema := "PUBLIC" |}.

(** The hosting environment provides a session; queries give [result]. *)
Definition env_ambient (t : Q) (result : DataFrame + string) : Env :=
  {| active_session := Some ambient;
     secrets_snowflake := None;
     secret_error := fun k => k;
     session_create := fun _ => inr "not reachable";
     run_sql := fun _ _ => result;
     now := t;
     py_lower := ascii_lower |}.

(** No ambient session, but the secrets open one. *)
Definition env_credentials (t : Q) (result : DataFrame + string) : Env :=
  {| active_session := None;
     secrets_snowflake := Some the_secrets;
     secret_error := fun k => k;
     session_create := fun _ => inl built;
     run_sql := fun _ _ => result;
     now := t;
     py_lower := ascii_lower |}.

(** No ambient session, and the warehouse refuses the credentials. *)
Definition env_down (t : Q) : Env :=
  {| active_session := None;
     secrets_snowflake := Some the_secrets;
     secret_error := fun k => k;
     session_create := fun _ => inr "250001: could not connect";
     run_sql := fun _ _ => inl vivi_table;
     now := t;
     py_lower := ascii_lower |}.

Definition w_default : Widgets :=
  {| search_term1_raw := "vivi";
     search_term2_raw := "final fantasy";
     search_button := false;
     clear_cache_button := false;
     card_id_input := fun v => v;
     table_event := fun _ => NoSelection;
     prices_view := fun _ => true;
     launch_view := fun _ => true |}.

(** A state in which the three results a default pass asks for are all
    in the cache, stored at time 0. *)
Definition st_full : State :=
  {| cache :=
       <[search_cards_key "vivi" "final fantasy" := (vivi_table, 0%Q)]>
       (<[get_card_prices_key default_card_id := (vivi_table, 0%Q)]>
       (<[get_price_after_launch_key := (vivi_table, 0%Q)]> ∅));
     ui := []; trace := []; selected_card_id := None |}.

Definition vivi_search : Operation := SearchCards "vivi" "final fantasy".

Definition w_clear : Widgets :=
  {| search_term1_raw := "vivi";
     search_term2_raw := "final fantasy";
     search_button := false;
     clear_cache_button := true;
     card_id_input := fun v => v;
     table_event := fun _ => NoSelection;
     prices_view := fun _ => true;
     launch_view := fun _ => true |}.

Definition env_sql_error : Env := env_ambient 0 (inr "SQL compilation error").

Definition no_rows : DataFrame := {| columns := ["NAME"; "ID"]; rows := [] |}.

(** ** Text *)

(** How often a character occurs in a string. *)
Fixpoint occurrences (c : Ascii.ascii) (s : string) : nat :=
  match s with
  | EmptyString => 0
  | String x s' => (if Ascii.eqb x c then 1 else 0) + occurrences c s'
  end.

(** The arguments of an operation, in order. *)
Definition op_args (op : Operation) : list string :=
  match op with
  | SearchCards a b => [a; b]
  | GetCardPrices c => [c]
  | GetPriceAfterLaunch => []
  end.

(** The same operation with every argument replaced by the empty string:
    its query is the bare template. *)
Definition op_blank (op : Operation) : Operation :=
  match op with
  | SearchCards _ _ => SearchCards "" ""
  | GetCardPrices _ => GetCardPrices ""
  | GetPriceAfterLaunch => GetPriceAfterLaunch
  end.

Definition sum_over (f : string -> nat) (l : list string) : nat :=
  foldr (fun s n => f s + n) 0 l.

(** The same page with other text in the two search boxes. *)
Definition with_terms (a b : string) (w : Widgets) : Widgets :=
  {| search_term1_raw := a;
     search_term2_raw := b;
     search_button := search_button w;
     clear_cache_button := clear_cache_button w;
     card_id_input := card_id_input w;
     table_event := table_event w;
     prices_view := prices_view w;
     launch_view := launch_view w |}.

(** ** Further notions *)

(** The keys of the dictionary literal of lines 20-27, in its order. *)
Definition secret_keys : list string :=
  ["account"; "user"; "password"; "warehouse"; "database"; "schema"].

(** A session can be had: the ambient one, or one from the secrets. *)
Definition session_available (env : Env) : Prop :=
  is_Some (active_session env) \/ exists s, fallback env = inl s.

(** One operation called again and again, each time in its own world. *)
Definition calls (op : Operation) (envs : list Env) (st : State) : State :=
  foldl (fun st env => (call op env st).2) st envs.

(** The display block of an operation's section (lines 138-172 for the
    search, 205-284 for the prices, 302-328 for the launch view) raises on
    the table [df]. *)
Definition display_raises (w : Widgets) (op : Operation) (df : DataFrame) : Prop :=
  match op with
  | SearchCards _ _ => table_event w df = TableRaised
  | GetCardPrices _ => prices_view w df = false
  | GetPriceAfterLaunch => launch_view w df = false
  end.

(** The table [df], got for the operation [op], lets the pass go on: it is
    empty, so that its section shows a warning instead, or its display
    block ends without an exception and without a selected row. *)
Definition shown (w : Widgets) (op : Operation) (df : DataFrame) : Prop :=
  df_empty df = true \/
  match op with
  | SearchCards _ _ => table_event w df = NoSelection
  | GetCardPrices _ => prices_view w df = true
  | GetPriceAfterLaunch => launch_view w df = true
  end.

(** The selected card is set, and every table the cache would serve now
    lets the pass go on. *)
Definition ready (w : Widgets) (env : Env) (st : State) : Prop :=
  is_Some (selected_card_id st) /\
  forall op df,
    cache_read (op_ttl op) (now env) (op_key op) (cache st) = Some df ->
    shown w op df.

(** A computation that adds at most [a] requests for the ambient session,
    [c] session constructions and [q] queries to the trace. *)
Definition bounded (a c q : nat) {A} (m : App A) : Prop :=
  forall env st, exists evs,
    trace (m env st).2 = trace st ++ evs /\
    count is_active_attempt evs <= a /\
    count is_create_attempt evs <= c /\
    count is_sql evs <= q.

(** The queries the minimal page sends in a pass. *)
Definition minimal_queries (w : Minimal.Widgets) (session : Session) : list Event :=
  (if Minimal.search_button w ||
      (truthy (Minimal.search_term1 w) && truthy (Minimal.search_term2 w))
   then [EvSql session
           (Minimal.search_query (Minimal.search_term1 w) (Minimal.search_term2 w))]
   else []) ++
  (if truthy (Minimal.card_id w)
   then [EvSql session (Minimal.prices_query (Minimal.card_id w))]
   else []).

(** A computation that removes no entry from the cache. *)
Definition keeps_entries {A} (m : App A) : Prop :=
  forall env st k, is_Some (cache st !! k) -> is_Some (cache (m env st).2 !! k).

(** ** Further worlds, for the examples *)

(** The password is missing. *)
Definition env_no_password : Env :=
  {| active_session := None;
     secrets_snowflake := Some (delete "password" the_secrets);
     secret_error := fun k => "missing key " +:+ k;
     session_create := fun _ => inl built;
     run_sql := fun _ _ => inl vivi_table;
     now := 0;
     py_lower := ascii_lower |}.

(** Another card is selected, nothing is cached. *)
Definition st_other : State :=
  {| cache := ∅; ui := []; trace := []; selected_card_id := Some "another-card" |}.

(** A page whose Card ID box was overwritten by hand. *)
Definition w_typed : Widgets :=
  {| search_term1_raw := "";
     search_term2_raw := "";
     search_button := false;
     clear_cache_button := false;
     card_id_input := fun _ => "883c6111-c921-4cd6-930d-4fa335ef2871";
     table_event := fun _ => NoSelection;
     prices_view := fun _ => true;
     launch_view := fun _ => true |}.

(** The minimal page as it opens: its default texts, nothing pressed. *)
Definition w_minimal : Minimal.Widgets :=
  {| Minimal.search_term1 := "vaan";
     Minimal.search_term2 := "final";
     Minimal.search_button := false;
     Minimal.card_id := "883c6111-c921-4cd6-930d-4fa335ef2871";
     Minimal.table_view := fun _ => None;
     Minimal.prices_view := fun _ => None |}.

(** The columns the search table is reordered to (line 141). *)
Definition column_order : list string :=
  ["NAME"; "TCGPLAYER_URL"; "SET_NAME"; "ID"; "AVG_PRICE"; "MIN_PRICE";
   "MAX_PRICE"; "AVG_FOIL_PRICE"; "MIN_FOIL_PRICE"; "MAX_FOIL_PRICE";
   "PRICE_RECORDS_COUNT"].

Definition has_columns (cols : list string) (df : DataFrame) : bool :=
  forallb (fun c => bool_decide (c ∈ columns df)) cols.

(** The cell of a row under a column name. *)
Definition cell (df : DataFrame) (row : nat) (col : string) : option Value :=
  match list_find (fun c => c = col) (columns df), rows df !! row with
  | Some (i, _), Some r => r !! i
  | _, _ => None
  end.

(** Tables as the three warehouse objects return them. *)
Definition search_table : DataFrame :=
  {| columns := column_order;
     rows := [[VString "Vivi Ornitier"; VString "https://tcgplayer.example/vivi";
               VString "Final Fantasy"; VString default_card_id;
               VNumber 12; VNumber 9; VNumber 15; VNumber 30; VNumber 25;
               VNumber 41; VNumber 20]] |}.

Definition prices_table : DataFrame :=
  {| columns := ["PULL_DATE"; "USD"; "USD_FOIL"];
     rows := [[VDate "2025-06-13"; VNumber 12; VNull];
              [VDate "2025-06-14"; VNumber 13; VNumber 30]] |}.

Definition launch_table : DataFrame :=
  {| columns := ["SET_NAME"; "DATE_DIFF"; "AVG_USD"];
     rows := [[VString "Final Fantasy"; VNumber 1; VNumber 4];
              [VString "Final Fantasy"; VNumber 2; VNumber 3]] |}.

(** A warehouse that answers each of the three queries with its table and
    refuses anything else. *)
Definition warehouse (q : string) : DataFrame + string :=
  if String.prefix "SELECT * FROM TABLE(MTG_COST.PUBLIC.GET_CARD_ID(" q
  then inl search_table
  else if String.prefix "SELECT * FROM TABLE(MTG_COST.PUBLIC.GET_CARD_PRICES(" q
  then inl prices_table
  else if String.eqb q launch_query then inl launch_table
  else inr "SQL compilation error".

Definition env_warehouse (t : Q) : Env :=
  {| active_session := Some ambient;
     secrets_snowflake := None;
     secret_error := fun k => k;
     session_create := fun _ => inr "not reachable";
     run_sql := fun _ q => warehouse q;
     now := t;
     py_lower := ascii_lower |}.

(** Display blocks that raise exactly when a column they index is not in
    the table: line 149 for the search table, lines 206-224 for the price
    history, line 303 for the launch view. *)
Definition show_table (df : DataFrame) : TableEvent :=
  if has_columns column_order df then NoSelection else TableRaised.

Definition show_prices (df : DataFrame) : bool :=
  has_columns ["PULL_DATE"; "USD"; "USD_FOIL"] df.

Definition show_launch (df : DataFrame) : bool :=
  has_columns ["DATE_DIFF"; "SET_NAME"; "AVG_USD"] df.

(** The same search table with its first row clicked. *)
Definition click_first_row (df : DataFrame) : TableEvent :=
  if has_columns column_order df then
    match cell df 0 "ID" with
    | Some (VString id) => RowSelected id
    | _ => NoSelection
    end
  else TableRaised.

(** The page as it opens, nothing pressed. *)
Definition w_page : Widgets :=
  {| search_term1_raw := "vivi";
     search_term2_raw := "final fantasy";
     search_button := false;
     clear_cache_button := false;
     card_id_input := fun v => v;
     table_event := show_table;
     prices_view := show_prices;
     launch_view := show_launch |}.

(** The page with the first row of the search table clicked. *)
Definition w_click : Widgets :=
  {| search_term1_raw := "vivi";
     search_term2_raw := "final fantasy";
     search_button := false;
     clear_cache_button := false;
     card_id_input := fun v => v;
     table_event := click_first_row;
     prices_view := show_prices;
     launch_view := show_launch |}.

(** * Properties *)

(** ** Running the monad *)

Lemma bind_run {A B} (m : App A) (f : A -> App B) env st :
  (m ≫= f) env st =
  match m env st with
  | (Ret a, st') => f a env st'
  | (Stop, st') => (Stop, st')
  | (Rerun, st') => (Rerun, st')
  | (Crash, st') => (Crash, st')
  end.
Proof. reflexivity. Qed.

Lemma count_app p evs1 evs2 : count p (evs1 ++ evs2) = count p evs1 + count p evs2.
Proof. unfold count. rewrite List.filter_app, length_app. reflexivity. Qed.

(** ** Session provider *)

Lemma session_active env st s :
  active_session env = Some s ->
  get_snowflake_session env st = (Ret (s, active_label), add_event EvGetActive st).
Proof.
  intros H. unfold get_snowflake_session, get_active_session.
  cbn. unfold mbind, app_bind, modify, ask, mret, app_ret. cbn. rewrite H. reflexivity.
Qed.

Lemma session_credentials env st p s :
  active_session env = None ->
  connection_parameters env = inl p ->
  session_create env p = inl s ->
  get_snowflake_session env st =
  (Ret (s, credentials_label), add_event (EvCreate p) (add_event EvGetActive st)).
Proof.
  intros H1 H2 H3. unfold get_snowflake_session, get_active_session, Session_create.
  unfold mbind, app_bind, modify, ask, mret, app_ret. cbn. rewrite H1. cbn.
  rewrite H2. cbn. rewrite H3. reflexivity.
Qed.

Lemma session_no_config env st e :
  active_session env = None ->
  connection_parameters env = inr e ->
  get_snowflake_session env st =
  (Stop, add_ui (UiError (connect_failed e)) (add_event EvGetActive st)).
Proof.
  intros H1 H2. unfold get_snowflake_session, get_active_session.
  unfold mbind, app_bind, modify, ask, mret, app_ret. cbn. rewrite H1. cbn.
  rewrite H2. reflexivity.
Qed.

Lemma session_create_fails env st p e :
  active_session env = None ->
  connection_parameters env = inl p ->
  session_create env p = inr e ->
  get_snowflake_session env st =
  (Stop, add_ui (UiError (connect_failed e))
           (add_event (EvCreate p) (add_event EvGetActive st))).
Proof.
  intros H1 H2 H3. unfold get_snowflake_session, get_active_session, Session_create.
  unfold mbind, app_bind, modify, ask, mret, app_ret. cbn. rewrite H1. cbn.
  rewrite H2. cbn. rewrite H3. reflexivity.
Qed.

Lemma session_result_total env st :
  session_result env st (get_snowflake_session env st).
Proof.
  destruct (active_session env) as [s|] eqn:Ha.
  - rewrite (session_active env st s Ha). by constructor.
  - destruct (connection_parameters env) as [p|e] eqn:Hc.
    + destruct (session_create env p) as [s|e] eqn:Hs.
      * rewrite (session_credentials env st p s Ha Hc Hs). by econstructor.
      * rewrite (session_create_fails env st p e Ha Hc Hs). by econstructor.
    + rewrite (session_no_config env st e Ha Hc). by econstructor.
Qed.

Lemma new_events_app st st' evs :
  trace st' = trace st ++ evs -> new_events st st' = evs.
Proof. intros H. unfold new_events. rewrite H. apply drop_app_length. Qed.

(** What every call of the provider does, whatever the outside world:
    the cache and the selection are left alone, the ambient handle is
    asked for once and first, at most one handle is constructed, and no
    SQL is sent. *)
Lemma session_frame env st o st' :
  get_snowflake_session env st = (o, st') ->
  cache st' = cache st /\
  selected_card_id st' = selected_card_id st /\
  exists evs, trace st' = trace st ++ EvGetActive :: evs /\
    count is_active_attempt evs = 0 /\
    count is_create_attempt evs <= 1 /\
    count is_sql evs = 0.
Proof.
  intros H. pose proof (session_result_total env st) as R. rewrite H in R.
  inversion R; subst; cbn; (split; [done|]); (split; [done|]).
  - exists []. repeat split; try done. unfold count; cbn; lia.
  - exists [EvCreate p]. rewrite <- app_assoc. repeat split; try done.
  - exists []. repeat split; try done. unfold count; cbn; lia.
  - exists [EvCreate p]. rewrite <- app_assoc. repeat split; try done.
Qed.

Lemma session_returns_quietly env st s lbl st' :
  get_snowflake_session env st = (Ret (s, lbl), st') -> ui st' = ui st.
Proof.
  intros H. pose proof (session_result_total env st) as R. rewrite H in R.
  by inversion R; subst.
Qed.

Lemma session_never_reruns env st o st' :
  get_snowflake_session env st = (o, st') -> o <> Rerun /\ o <> Crash.
Proof.
  intros H. pose proof (session_result_total env st) as R. rewrite H in R.
  by inversion R; subst.
Qed.

Lemma session_both_fail env st e :
  active_session env = None -> fallback env = inr e ->
  exists st', get_snowflake_session env st = (Stop, st') /\
    ui st' = ui st ++ [UiError (connect_failed e)] /\
    cache st' = cache st /\
    selected_card_id st' = selected_card_id st /\
    count is_sql (trace st') = count is_sql (trace st) /\
    exists evs, trace st' = trace st ++ EvGetActive :: evs.
Proof.
  intros Ha Hf. unfold fallback in Hf.
  destruct (connection_parameters env) as [p|e'] eqn:Hc.
  - rewrite (session_create_fails env st p e Ha Hc Hf). eexists; split; [done|].
    cbn -[count]. repeat split; try done.
    + by rewrite !count_app, !Nat.add_0_r.
    + exists [EvCreate p]. by rewrite <- app_assoc.
  - injection Hf as ->. rewrite (session_no_config env st e Ha Hc).
    eexists; split; [done|]. cbn -[count]. repeat split; try done.
    + by rewrite !count_app, !Nat.add_0_r.
    + by exists [].
Qed.

(** ** Query operations *)

Lemma call_unfold op : call op = cache_data (op_ttl op) (op_key op) (op_body op).
Proof. by destruct op. Qed.

Lemma op_body_run op env st :
  op_body op env st =
  match get_snowflake_session env st with
  | (Ret (s, _), st1) =>
      match run_sql env s (op_query op) with
      | inl df => (Ret df, add_event (EvSql s (op_query op)) st1)
      | inr e =>
          (Ret pd_DataFrame,
           add_ui (UiError (op_error op e)) (add_event (EvSql s (op_query op)) st1))
      end
  | (Stop, st1) => (Stop, st1)
  | (Rerun, st1) => (Rerun, st1)
  | (Crash, st1) => (Crash, st1)
  end.
Proof.
  destruct op; cbn;
    unfold search_cards_body, get_card_prices_body, get_price_after_launch_body;
    rewrite bind_run;
    destruct (get_snowflake_session env st) as [[[s l]| | |] st1]; try reflexivity;
    cbn; unfold session_sql, mbind, app_bind, modify, ask, mret, app_ret; cbn;
    by destruct (run_sql env s _).
Qed.

Lemma cache_data_hit ttl k f env st df :
  cache_read ttl (now env) k (cache st) = Some df ->
  cache_data ttl k f env st = (Ret df, st).
Proof. intros H. unfold cache_data. by rewrite H. Qed.

Lemma cache_data_miss ttl k f env st :
  cache_read ttl (now env) k (cache st) = None ->
  cache_data ttl k f env st =
  match f env st with
  | (Ret df, st') => (Ret df, set_cache (<[k := (df, now env)]> (cache st')) st')
  | (o, st') => (o, st')
  end.
Proof. intros H. unfold cache_data. by rewrite H. Qed.

Lemma op_body_frame op env st o st' :
  op_body op env st = (o, st') ->
  cache st' = cache st /\
  selected_card_id st' = selected_card_id st /\
  o <> Rerun /\ o <> Crash /\
  exists evs, trace st' = trace st ++ EvGetActive :: evs /\
    count is_sql evs <= 1 /\
    (o = Stop -> count is_sql evs = 0).
Proof.
  rewrite op_body_run.
  destruct (get_snowflake_session env st) as [o1 st1] eqn:Hs.
  destruct (session_frame _ _ _ _ Hs) as (Hc & Hsel & evs & Ht & _ & _ & Hq).
  destruct (session_never_reruns _ _ _ _ Hs) as [Hr Hk].
  destruct o1 as [[s l]| | |]; try done.
  - destruct (run_sql env s (op_query op)) as [df|e]; intros [= <- <-]; cbn;
      (repeat split; try done);
      exists (evs ++ [EvSql s (op_query op)]);
      rewrite Ht, <- app_assoc; cbn; (repeat split; try done);
      rewrite count_app, Hq; cbn; lia.
  - intros [= <- <-]. repeat split; try done.
    exists evs. repeat split; try done. lia.
Qed.

(** ** Expiry *)

Lemma ttl_valid_true ttl ins t : ttl_valid ttl ins t = true <-> (t - ins < ttl)%Q.
Proof.
  unfold ttl_valid. rewrite negb_true_iff. split.
  - intros H. apply Qnot_le_lt. intros Hle.
    apply Qle_bool_iff in Hle. congruence.
  - intros H. destruct (Qle_bool ttl (t - ins)) eqn:E; [|done].
    apply Qle_bool_iff in E. exfalso. by apply (Qlt_not_le _ _ H).
Qed.

Lemma ttl_valid_false ttl ins t : ttl_valid ttl ins t = false <-> (ttl <= t - ins)%Q.
Proof.
  unfold ttl_valid. rewrite negb_false_iff. apply Qle_bool_iff.
Qed.

Lemma cache_read_entry ttl t k c df ins :
  c !! k = Some (df, ins) ->
  cache_read ttl t k c = if ttl_valid ttl ins t then Some df else None.
Proof. intros H. unfold cache_read. by rewrite H. Qed.

Lemma cache_read_Some ttl t k c df :
  cache_read ttl t k c = Some df ->
  exists ins, c !! k = Some (df, ins) /\ (t - ins < ttl)%Q.
Proof.
  unfold cache_read. destruct (c !! k) as [[d ins]|] eqn:E; [|done].
  destruct (ttl_valid ttl ins t) eqn:V; [|done].
  intros [= ->]. exists ins. split; [done|]. by apply ttl_valid_true.
Qed.

Lemma cache_read_absent ttl t k c : c !! k = None -> cache_read ttl t k c = None.
Proof. intros H. unfold cache_read. by rewrite H. Qed.

(** A miss runs the function, and the first thing the function does is
    ask for a session. *)
Lemma call_miss op env st :
  cache_read (op_ttl op) (now env) (op_key op) (cache st) = None ->
  call op env st =
  match op_body op env st with
  | (Ret df, st') =>
      (Ret df, set_cache (<[op_key op := (df, now env)]> (cache st')) st')
  | (o, st') => (o, st')
  end.
Proof. intros H. rewrite call_unfold. by apply cache_data_miss. Qed.

Lemma call_hit op env st df :
  cache_read (op_ttl op) (now env) (op_key op) (cache st) = Some df ->
  call op env st = (Ret df, st).
Proof. intros H. rewrite call_unfold. by apply cache_data_hit. Qed.

Lemma call_miss_fetches op env st :
  cache_read (op_ttl op) (now env) (op_key op) (cache st) = None ->
  exists evs, trace (call op env st).2 = trace st ++ EvGetActive :: evs.
Proof.
  intros H. rewrite (call_miss _ _ _ H).
  destruct (op_body op env st) as [o st'] eqn:Hb.
  destruct (op_body_frame _ _ _ _ _ Hb) as (_ & _ & _ & _ & evs & Ht & _).
  exists evs. by destruct o.
Qed.

(** What a call leaves behind, hit or miss. *)
Lemma call_frame op env st o st' :
  call op env st = (o, st') ->
  selected_card_id st' = selected_card_id st /\
  o <> Rerun /\ o <> Crash /\
  (o = Stop -> cache st' = cache st) /\
  (forall df, o = Ret df ->
     cache st' = cache st \/ cache st' = <[op_key op := (df, now env)]> (cache st)) /\
  exists evs, trace st' = trace st ++ evs /\
    count is_sql evs <= 1 /\
    (o = Stop -> count is_sql evs = 0).
Proof.
  destruct (cache_read (op_ttl op) (now env) (op_key op) (cache st)) as [d|] eqn:Hr.
  - rewrite (call_hit _ _ _ _ Hr). intros [= <- <-]. repeat split; try done.
    + intros; by left.
    + exists []. rewrite app_nil_r. repeat split; try done. unfold count; cbn; lia.
  - rewrite (call_miss _ _ _ Hr).
    destruct (op_body op env st) as [o1 st1] eqn:Hb.
    destruct (op_body_frame _ _ _ _ _ Hb) as (Hc & Hsel & Hnr & Hnc & evs & Ht & Hq & Hs).
    destruct o1 as [df| | |]; try done; intros [= <- <-]; cbn.
    + repeat split; try done.
      * intros d [= ->]. right. by rewrite Hc.
      * exists (EvGetActive :: evs). repeat split; try done.
    + repeat split; try done.
      exists (EvGetActive :: evs). repeat split; try done.
Qed.

(** ** The render pass *)

Lemma appends_ret {A} (a : A) : appends (mret a : App A).
Proof. intros env st. exists []. by rewrite app_nil_r. Qed.

Lemma appends_bind {A B} (m : App A) (f : A -> App B) :
  appends m -> (forall a, appends (f a)) -> appends (m ≫= f).
Proof.
  intros Hm Hf env st. rewrite bind_run.
  destruct (Hm env st) as [evs1 H1].
  destruct (m env st) as [[a| | |] st1]; cbn in *; try by exists evs1.
  destruct (Hf a env st1) as [evs2 H2].
  exists (evs1 ++ evs2). by rewrite H2, H1, app_assoc.
Qed.

Lemma appends_modify (f : State -> State) :
  (forall st, trace (f st) = trace st) -> appends (modify f).
Proof. intros H env st. exists []. cbn. by rewrite H, app_nil_r. Qed.

Lemma appends_exit {A} (o : Outcome A) : appends (fun _ st => (o, st)).
Proof. intros env st. exists []. by rewrite app_nil_r. Qed.

Lemma appends_if {A} (b : bool) (m1 m2 : App A) :
  appends m1 -> appends m2 -> appends (if b then m1 else m2).
Proof. by destruct b. Qed.

Lemma appends_call op : appends (call op).
Proof.
  intros env st. destruct (call op env st) as [o st'] eqn:H.
  destruct (call_frame _ _ _ _ _ H) as (_ & _ & _ & _ & _ & evs & Ht & _).
  by exists evs.
Qed.

Lemma str_lower_run s env st : str_lower s env st = (Ret (py_lower env s), st).
Proof. reflexivity. Qed.

Lemma appends_str_lower s : appends (str_lower s).
Proof. intros env st. exists []. by rewrite app_nil_r. Qed.

Lemma appends_read_selected : appends read_selected.
Proof.
  intros env st. exists []. unfold read_selected. rewrite bind_run. cbn.
  destruct (selected_card_id st); cbn; by rewrite app_nil_r.
Qed.

Create HintDb appends.
#[local] Hint Resolve appends_ret appends_read_selected : appends.
#[local] Hint Extern 1 (appends (modify _)) =>
  apply appends_modify; intros; reflexivity : appends.
#[local] Hint Extern 1 (appends (st_error _)) =>
  apply appends_modify; intros; reflexivity : appends.
#[local] Hint Extern 1 (appends (st_success _)) =>
  apply appends_modify; intros; reflexivity : appends.
#[local] Hint Extern 1 (appends (st_warning _)) =>
  apply appends_modify; intros; reflexivity : appends.
#[local] Hint Extern 1 (appends (st_info _)) =>
  apply appends_modify; intros; reflexivity : appends.
#[local] Hint Extern 1 (appends cache_data_clear) =>
  apply appends_modify; intros; reflexivity : appends.
#[local] Hint Extern 1 (appends st_rerun) => apply appends_exit : appends.
#[local] Hint Extern 1 (appends st_stop) => apply appends_exit : appends.
#[local] Hint Extern 1 (appends raise) => apply appends_exit : appends.
#[local] Hint Extern 2 (appends (_ ≫= _)) => apply appends_bind; [|intros] : appends.
#[local] Hint Extern 2 (appends (if _ then _ else _)) => apply appends_if : appends.

Lemma appends_search_section w a b : appends (search_section w a b).
Proof.
  unfold search_section. apply appends_if; [|auto with appends].
  apply appends_bind; [apply (appends_call (SearchCards a b))|].
  intros df. apply appends_if; [|auto with appends].
  destruct (table_event w df); auto with appends.
  apply appends_bind; [auto with appends|]. intros sel.
  destruct (decide (sel = id)); auto 10 with appends.
Qed.

Lemma appends_price_section w : appends (price_section w).
Proof.
  unfold price_section. apply appends_bind; [auto with appends|]. intros sel.
  apply appends_bind.
  - destruct (decide (card_id_input w sel = sel)); auto with appends.
  - intros _. apply appends_if; [|auto with appends].
    apply appends_bind; [apply (appends_call (GetCardPrices _))|].
    intros df. auto 10 with appends.
Qed.

Lemma appends_launch_section w : appends (launch_section w).
Proof.
  unfold launch_section.
  apply appends_bind; [apply (appends_call GetPriceAfterLaunch)|].
  intros df. auto 10 with appends.
Qed.

Lemma started_frame st :
  cache (started st) = cache st /\ ui (started st) = ui st /\
  trace (started st) = trace st.
Proof. unfold started. by destruct (selected_card_id st). Qed.

(** When the provider stops, the pass stops there. *)
Lemma render_stops w env st st1 :
  get_snowflake_session env (started st) = (Stop, st1) ->
  render w env st = (Stop, st1).
Proof.
  intros H. unfold render. rewrite bind_run. cbn. fold (started st).
  rewrite bind_run, H. reflexivity.
Qed.

Lemma bind_first_event {A B} (m : App A) (f : A -> App B) e :
  (forall env st, exists evs, trace (m env st).2 = trace st ++ e :: evs) ->
  (forall a, appends (f a)) ->
  forall env st, exists evs, trace ((m ≫= f) env st).2 = trace st ++ e :: evs.
Proof.
  intros Hm Hf env st. rewrite bind_run.
  destruct (Hm env st) as [evs1 H1].
  destruct (m env st) as [[a| | |] st1]; cbn in *; try by exists evs1.
  destruct (Hf a env st1) as [evs2 H2].
  exists (evs1 ++ evs2). by rewrite H2, H1, <- app_assoc.
Qed.

Lemma session_first_event env st :
  exists evs, trace (get_snowflake_session env st).2 = trace st ++ EvGetActive :: evs.
Proof.
  destruct (get_snowflake_session env st) as [o st1] eqn:Hs.
  destruct (session_frame _ _ _ _ Hs) as (_ & _ & evs & Ht & _). by exists evs.
Qed.

(** The first call a pass makes outside the process is the top-level
    request for the ambient session. *)
Lemma render_trace w env st :
  exists evs, trace (render w env st).2 = trace st ++ EvGetActive :: evs.
Proof.
  unfold render. rewrite bind_run.
  unfold init_session_state at 1, modify at 1. cbv beta iota. fold (started st).
  destruct (started_frame st) as (_ & _ & Hst). rewrite <- Hst.
  apply bind_first_event; [apply session_first_event|].
  intros [session msg]. cbv beta iota zeta.
  apply appends_bind; [solve [auto with appends]|]. intros ?; cbv beta.
  apply appends_bind; [apply appends_str_lower|]. intros search_term1; cbv beta.
  apply appends_bind; [apply appends_str_lower|]. intros search_term2; cbv beta.
  apply appends_bind; [solve [auto 10 with appends]|]. intros ?; cbv beta.
  apply appends_bind; [apply appends_search_section|]. intros ?; cbv beta.
  apply appends_bind; [apply appends_price_section|]. intros ?; cbv beta.
  apply appends_launch_section.
Qed.

Example the_parameters_read t r :
  connection_parameters (env_credentials t r) = inl the_parameters.
Proof. reflexivity. Qed.

(** ** Session acquisition *)

Lemma secret_inl env k v :
  secret env k = inl v ->
  exists sec, secrets_snowflake env = Some sec /\ sec !! k = Some v.
Proof.
  unfold secret. destruct (secrets_snowflake env) as [sec|]; [|done].
  destruct (sec !! k) eqn:E; [|done]. intros [= ->]. by exists sec.
Qed.

(** The handle of the fallback path is built from the six secrets. *)
Lemma connection_parameters_fields env p :
  connection_parameters env = inl p ->
  exists sec, secrets_snowflake env = Some sec /\
    sec !! "account" = Some (cp_account p) /\
    sec !! "user" = Some (cp_user p) /\
    sec !! "password" = Some (cp_password p) /\
    sec !! "warehouse" = Some (cp_warehouse p) /\
    sec !! "database" = Some (cp_database p) /\
    sec !! "schema" = Some (cp_schema p).
Proof.
  unfold connection_parameters.
  destruct (secret env "account") as [a|] eqn:E1; [|done].
  destruct (secret env "user") as [u|] eqn:E2; [|done].
  destruct (secret env "password") as [pw|] eqn:E3; [|done].
  destruct (secret env "warehouse") as [wh|] eqn:E4; [|done].
  destruct (secret env "database") as [d|] eqn:E5; [|done].
  destruct (secret env "schema") as [sc|] eqn:E6; [|done].
  intros [= <-]. cbn.
  destruct (secret_inl _ _ _ E1) as (sec & Hs & H1). exists sec. split; [done|].
  apply secret_inl in E2 as (? & ? & ?), E3 as (? & ? & ?), E4 as (? & ? & ?),
    E5 as (? & ? & ?), E6 as (? & ? & ?).
  by simplify_eq.
Qed.

(** C4: [get_snowflake_session] first asks for the ambient session; when
    that raises it makes one attempt to build a session from the six
    secrets (account, user, password, warehouse, database, schema); the
    path that succeeds returns its handle with its own label; each path is
    tried at most once per call, the fallback not at all when the ambient
    session exists; and when the fallback succeeds nothing is written to
    the page. *)
Theorem get_snowflake_session_two_paths env st :
  (forall s, active_session env = Some s ->
     exists st', get_snowflake_session env st = (Ret (s, active_label), st') /\
       new_events st st' = [EvGetActive] /\ ui st' = ui st) /\
  (forall s, active_session env = None -> fallback env = inl s ->
     exists st' p sec,
       get_snowflake_session env st = (Ret (s, credentials_label), st') /\
       new_events st st' = [EvGetActive; EvCreate p] /\ ui st' = ui st /\
       secrets_snowflake env = Some sec /\
       sec !! "account" = Some (cp_account p) /\
       sec !! "user" = Some (cp_user p) /\
       sec !! "password" = Some (cp_password p) /\
       sec !! "warehouse" = Some (cp_warehouse p) /\
       sec !! "database" = Some (cp_database p) /\
       sec !! "schema" = Some (cp_schema p)) /\
  active_label <> credentials_label /\
  count is_active_attempt (new_events st (get_snowflake_session env st).2) = 1 /\
  count is_create_attempt (new_events st (get_snowflake_session env st).2) <= 1.
Proof.
  split; [|split; [|split; [done|]]].
  - intros s Ha. rewrite (session_active env st s Ha). eexists; split; [done|].
    split; [|done]. by apply new_events_app.
  - intros s Ha Hf. unfold fallback in Hf.
    destruct (connection_parameters env) as [p|] eqn:Hc; [|done].
    rewrite (session_credentials env st p s Ha Hc Hf).
    destruct (connection_parameters_fields _ _ Hc) as (sec & Hsec & Hfields).
    eexists; exists p, sec. split; [done|]. split; [|split; [done|by split]].
    apply new_events_app. cbn. by rewrite <- app_assoc.
  - destruct (get_snowflake_session env st) as [o st'] eqn:Hs.
    destruct (session_frame _ _ _ _ Hs) as (_ & _ & evs & Ht & Ha & Hc & _).
    cbn [snd]. rewrite (new_events_app _ _ _ Ht).
    change (EvGetActive :: evs) with ([EvGetActive] ++ evs).
    rewrite !count_app, Ha. split; [done|]. cbn. lia.
Qed.

(** The primary path fails, the fallback succeeds: the built handle comes
    back under the credentials label and the page shows no error. *)
Lemma get_snowflake_session_two_paths_witness :
  exists st' p sec,
    get_snowflake_session (env_credentials 0 (inl vivi_table)) st0 =
      (Ret (built, credentials_label), st') /\
    new_events st0 st' = [EvGetActive; EvCreate p] /\ ui st' = ui st0 /\
    secrets_snowflake (env_credentials 0 (inl vivi_table)) = Some sec /\
    sec !! "account" = Some (cp_account p) /\
    sec !! "user" = Some (cp_user p) /\
    sec !! "password" = Some (cp_password p) /\
    sec !! "warehouse" = Some (cp_warehouse p) /\
    sec !! "database" = Some (cp_database p) /\
    sec !! "schema" = Some (cp_schema p).
Proof.
  apply (proj1 (proj2
    (get_snowflake_session_two_paths (env_credentials 0 (inl vivi_table)) st0))
    built); reflexivity.
Defined.

(** ** Connection failure *)

Lemma call_connection_failure op env st e :
  active_session env = None -> fallback env = inr e ->
  exists o st', call op env st = (o, st') /\
    cache st' = cache st /\
    count is_sql (trace st') = count is_sql (trace st) /\
    (cache_read (op_ttl op) (now env) (op_key op) (cache st) = None ->
       o = Stop /\ ui st' = ui st ++ [UiError (connect_failed e)]).
Proof.
  intros Ha Hf.
  destruct (cache_read (op_ttl op) (now env) (op_key op) (cache st)) as [df|] eqn:Hr.
  - rewrite (call_hit _ _ _ _ Hr). by exists (Ret df), st.
  - rewrite (call_miss _ _ _ Hr), op_body_run.
    destruct (session_both_fail env st e Ha Hf) as (st' & -> & Hu & Hc & _ & Hq & _).
    by exists Stop, st'.
Qed.

Lemma render_connection_failure w env st e :
  active_session env = None -> fallback env = inr e ->
  exists st', render w env st = (Stop, st') /\
    cache st' = cache st /\
    ui st' = ui st ++ [UiError (connect_failed e)] /\
    count is_sql (trace st') = count is_sql (trace st).
Proof.
  intros Ha Hf.
  destruct (session_both_fail env (started st) e Ha Hf)
    as (st' & Hs & Hu & Hc & _ & Hq & _).
  destruct (started_frame st) as (Ec & Eu & Et).
  exists st'. rewrite (render_stops _ _ _ _ Hs), Hu, Hc, Hq, Ec, Eu, Et. done.
Qed.

(** C5: when the ambient session is missing and the fallback fails too,
    [get_snowflake_session] writes the connection error to the page and
    stops; a query operation that would have to fetch stops with it, no
    operation sends SQL, the pass as a whole stops, and the cache is left
    as it was. *)
Theorem both_paths_fail_is_terminal op w env st e :
  active_session env = None -> fallback env = inr e ->
  (exists st', get_snowflake_session env st = (Stop, st') /\
     ui st' = ui st ++ [UiError (connect_failed e)] /\
     cache st' = cache st /\
     count is_sql (trace st') = count is_sql (trace st)) /\
  (exists o st', call op env st = (o, st') /\
     cache st' = cache st /\
     count is_sql (trace st') = count is_sql (trace st) /\
     (cache_read (op_ttl op) (now env) (op_key op) (cache st) = None ->
        o = Stop /\ ui st' = ui st ++ [UiError (connect_failed e)])) /\
  (exists st', render w env st = (Stop, st') /\
     cache st' = cache st /\
     ui st' = ui st ++ [UiError (connect_failed e)] /\
     count is_sql (trace st') = count is_sql (trace st)).
Proof.
  intros Ha Hf. split; [|split].
  - destruct (session_both_fail env st e Ha Hf) as (st' & Hs & Hu & Hc & _ & Hq & _).
    by exists st'.
  - by apply call_connection_failure.
  - by apply render_connection_failure.
Qed.

Lemma both_paths_fail_is_terminal_witness :
  (exists st', get_snowflake_session (env_down 0) st0 = (Stop, st') /\
     ui st' = ui st0 ++ [UiError (connect_failed "250001: could not connect")] /\
     cache st' = cache st0 /\
     count is_sql (trace st') = count is_sql (trace st0)) /\
  (exists o st', call (SearchCards "vivi" "final") (env_down 0) st0 = (o, st') /\
     cache st' = cache st0 /\
     count is_sql (trace st') = count is_sql (trace st0) /\
     (cache_read (op_ttl (SearchCards "vivi" "final")) (now (env_down 0))
        (op_key (SearchCards "vivi" "final")) (cache st0) = None ->
        o = Stop /\
        ui st' = ui st0 ++ [UiError (connect_failed "250001: could not connect")])) /\
  (exists st', render w_default (env_down 0) st0 = (Stop, st') /\
     cache st' = cache st0 /\
     ui st' = ui st0 ++ [UiError (connect_failed "250001: could not connect")] /\
     count is_sql (trace st') = count is_sql (trace st0)).
Proof.
  apply (both_paths_fail_is_terminal (SearchCards "vivi" "final") w_default
           (env_down 0) st0 "250001: could not connect"); reflexivity.
Defined.

(** ** The top-level acquisition *)

Example full_pass_with_session :
  let r := render w_default (env_ambient 10 (inr "not asked")) st_full in
  r.1 = Ret tt /\ trace r.2 = [EvGetActive] /\ ui r.2 = [UiSuccess active_label;
    UiInfo "💡 Click on any row to select that card for price tracking below"].
Proof. vm_compute. done. Qed.

(** C10: every pass asks for a session at top level before anything
    else, whatever the cache holds; when the provider stops, the pass stops
    in the provider's state, so that a connection failure halts the pass
    even if every result it would show is in the cache. *)
Theorem render_acquires_session_first w env st c :
  (exists evs,
     trace (render w env (set_cache c st)).2 = trace st ++ EvGetActive :: evs) /\
  (forall st1,
     get_snowflake_session env (started (set_cache c st)) = (Stop, st1) ->
     render w env (set_cache c st) = (Stop, st1)) /\
  (forall e, active_session env = None -> fallback env = inr e ->
     exists st', render w env (set_cache c st) = (Stop, st') /\
       cache st' = c /\
       ui st' = ui st ++ [UiError (connect_failed e)] /\
       count is_active_attempt (new_events st st') = 1 /\
       count is_sql (trace st') = count is_sql (trace st)).
Proof.
  split; [|split].
  - apply (render_trace w env (set_cache c st)).
  - intros st1. apply render_stops.
  - intros e Ha Hf.
    destruct (session_both_fail env (started (set_cache c st)) e Ha Hf)
      as (st' & Hs & Hu & Hc & _ & Hq & _).
    destruct (session_frame _ _ _ _ Hs) as (_ & _ & evs & Ht & Hn & _).
    destruct (started_frame (set_cache c st)) as (Ec & Eu & Et).
    cbn in Ec, Eu, Et. rewrite Et in Ht, Hq. rewrite Eu in Hu. rewrite Ec in Hc.
    exists st'. rewrite (render_stops _ _ _ _ Hs).
    repeat split; try done.
    rewrite (new_events_app _ _ _ Ht).
    change (EvGetActive :: evs) with ([EvGetActive] ++ evs).
    by rewrite count_app, Hn.
Qed.

(** The cache holds everything the pass would show, and still the pass
    stops at the top-level acquisition. *)
Lemma render_acquires_session_first_witness :
  exists st', render w_default (env_down 10) (set_cache (cache st_full) st0) = (Stop, st') /\
    cache st' = cache st_full /\
    ui st' = ui st0 ++ [UiError (connect_failed "250001: could not connect")] /\
    count is_active_attempt (new_events st0 st') = 1 /\
    count is_sql (trace st') = count is_sql (trace st0).
Proof.
  apply (proj2 (proj2
    (render_acquires_session_first w_default (env_down 10) st0 (cache st_full)))
    "250001: could not connect"); reflexivity.
Defined.

(** ** Hits *)

Lemma app_self_nil {A} (l k : list A) : l = l ++ k -> k = [].
Proof.
  intros H. apply (f_equal length) in H. rewrite length_app in H.
  destruct k; [done | cbn in H; lia].
Qed.

Lemma new_events_refl st : new_events st st = [].
Proof. unfold new_events. by rewrite drop_all. Qed.

(** After a call that returned, the cache holds what it returned. *)
Lemma call_returns_entry op env st df st1 :
  call op env st = (Ret df, st1) ->
  exists ins, cache st1 !! op_key op = Some (df, ins) /\
    (cache_read (op_ttl op) (now env) (op_key op) (cache st) = None ->
       ins = now env) /\
    (is_Some (cache_read (op_ttl op) (now env) (op_key op) (cache st)) ->
       st1 = st /\ (now env - ins < op_ttl op)%Q).
Proof.
  destruct (cache_read (op_ttl op) (now env) (op_key op) (cache st)) as [d|] eqn:Hr.
  - rewrite (call_hit _ _ _ _ Hr). intros [= <- <-].
    destruct (cache_read_Some _ _ _ _ _ Hr) as (ins & Hl & Hv).
    exists ins. repeat split; try done.
  - rewrite (call_miss _ _ _ Hr).
    destruct (op_body op env st) as [[d| | |] st'] eqn:Hb; try done.
    intros [= <- <-]. exists (now env). cbn. rewrite lookup_insert_eq.
    repeat split; try done; by intros [? ?].
Qed.

Lemma entry_hit op env st df ins :
  cache st !! op_key op = Some (df, ins) ->
  (now env - ins < op_ttl op)%Q ->
  call op env st = (Ret df, st).
Proof.
  intros Hl Hv. apply call_hit. rewrite (cache_read_entry _ _ _ _ _ _ Hl).
  apply ttl_valid_true in Hv. by rewrite Hv.
Qed.

Lemma entry_miss op env st df ins :
  cache st !! op_key op = Some (df, ins) ->
  (op_ttl op <= now env - ins)%Q ->
  cache_read (op_ttl op) (now env) (op_key op) (cache st) = None.
Proof.
  intros Hl Hv. rewrite (cache_read_entry _ _ _ _ _ _ Hl).
  apply ttl_valid_false in Hv. by rewrite Hv.
Qed.

(** C3: once a call of an operation has returned, the cache holds its
    result, and a call with the same parameters made within the TTL of that
    entry returns the stored result and leaves the whole state as it was:
    no session is asked for and no SQL is sent.  Two calls less than a TTL
    apart send SQL at most once between them. *)
Theorem second_call_within_ttl_is_hit op env1 env2 st :
  (forall df st1, call op env1 st = (Ret df, st1) ->
     exists ins, cache st1 !! op_key op = Some (df, ins) /\
       (cache_read (op_ttl op) (now env1) (op_key op) (cache st) = None ->
          ins = now env1) /\
       ((now env2 - ins < op_ttl op)%Q ->
          call op env2 st1 = (Ret df, st1) /\
          trace (call op env2 st1).2 = trace st1)) /\
  ((now env2 - now env1 < op_ttl op)%Q ->
     count is_sql (new_events st (call op env2 (call op env1 st).2).2) <= 1).
Proof.
  split.
  - intros df st1 H.
    destruct (call_returns_entry _ _ _ _ _ H) as (ins & Hl & Hm & _).
    exists ins. repeat split; try done.
    + by apply (entry_hit _ _ _ _ ins).
    + by rewrite (entry_hit op env2 st1 df ins).
  - intros Hv.
    destruct (call op env1 st) as [o1 st1] eqn:H1. cbn [snd].
    destruct (call op env2 st1) as [o2 st2] eqn:H2. cbn [snd].
    destruct (call_frame _ _ _ _ _ H1) as (_ & _ & _ & _ & _ & evs1 & Ht1 & Hq1 & Hs1).
    destruct (call_frame _ _ _ _ _ H2) as (_ & _ & _ & _ & _ & evs2 & Ht2 & Hq2 & _).
    assert (trace st2 = trace st ++ (evs1 ++ evs2)) as Ht
      by (by rewrite Ht2, Ht1, app_assoc).
    rewrite (new_events_app _ _ _ Ht), count_app.
    destruct (call_frame _ _ _ _ _ H1) as (_ & Hnr & Hnc & _).
    destruct o1 as [df| | |]; try done.
    + destruct (call_returns_entry _ _ _ _ _ H1) as (ins & Hl & Hm & Hh).
      destruct (cache_read (op_ttl op) (now env1) (op_key op) (cache st)) as [d|] eqn:Hr.
      * destruct Hh as [-> _]; [by eexists|].
        apply app_self_nil in Ht1 as ->. cbn. lia.
      * rewrite (Hm eq_refl) in Hl.
        rewrite (entry_hit _ _ _ _ _ Hl Hv) in H2. injection H2 as <- <-.
        apply app_self_nil in Ht2 as ->. cbn. lia.
    + rewrite (Hs1 eq_refl). lia.
Qed.

(** A search at time 0 populates the cache; the same search an hour
    later is served from it, although no session could be had by then. *)
Lemma second_call_within_ttl_is_hit_witness :
  call vivi_search (env_down 3600)
    (call vivi_search (env_ambient 0 (inl vivi_table)) st0).2 =
  (Ret vivi_table, (call vivi_search (env_ambient 0 (inl vivi_table)) st0).2) /\
  trace (call vivi_search (env_down 3600)
           (call vivi_search (env_ambient 0 (inl vivi_table)) st0).2).2 =
  trace (call vivi_search (env_ambient 0 (inl vivi_table)) st0).2.
Proof.
  destruct (proj1 (second_call_within_ttl_is_hit vivi_search
                     (env_ambient 0 (inl vivi_table)) (env_down 3600) st0)
              vivi_table _ eq_refl) as (ins & _ & Hm & Hh).
  apply Hh. rewrite (Hm eq_refl). reflexivity.
Defined.

(** ** What a fetch does *)

(** A function body that returns has acquired a session and sent its
    query, once, and returns either the table or, when the query raised,
    the empty frame after writing the error to the page. *)
Lemma op_body_returns op env st df st' :
  op_body op env st = (Ret df, st') ->
  exists s lbl st1,
    get_snowflake_session env st = (Ret (s, lbl), st1) /\
    trace st' = trace st1 ++ [EvSql s (op_query op)] /\
    cache st' = cache st /\
    ((run_sql env s (op_query op) = inl df /\ ui st' = ui st) \/
     (exists e, run_sql env s (op_query op) = inr e /\ df = pd_DataFrame /\
        ui st' = ui st ++ [UiError (op_error op e)])).
Proof.
  rewrite op_body_run.
  destruct (get_snowflake_session env st) as [[[s lbl]| | |] st1] eqn:Hs; try done.
  pose proof (session_returns_quietly _ _ _ _ _ Hs) as Hu.
  destruct (session_frame _ _ _ _ Hs) as (Hc & _).
  destruct (run_sql env s (op_query op)) as [d|e] eqn:Hq; intros [= <- <-];
    exists s, lbl, st1; cbn; rewrite Hu, Hc; repeat split; try done.
  - by left.
  - right. by exists e.
Qed.

Lemma op_body_sql_once op env st df st' :
  op_body op env st = (Ret df, st') -> count is_sql (new_events st st') = 1.
Proof.
  intros H. destruct (op_body_returns _ _ _ _ _ H) as (s & lbl & st1 & Hs & Ht & _).
  destruct (session_frame _ _ _ _ Hs) as (_ & _ & evs & Ht1 & _ & _ & Hq).
  rewrite Ht1, <- app_assoc in Ht. rewrite (new_events_app _ _ _ Ht).
  change (EvGetActive :: evs) with ([EvGetActive] ++ evs).
  by rewrite !count_app, Hq.
Qed.

(** ** Expiry after 24 hours *)

(** C7: the three operations share one TTL, 86400 seconds, that is 24
    hours; an entry is served exactly while the time since its insertion
    is below the TTL; read [eps] before the TTL has passed it is a hit, read
    [eps] after, a miss that runs the function again.  The test is made by
    the read itself. *)
Theorem entry_valid_for_24_hours op env st df ins :
  cache st !! op_key op = Some (df, ins) ->
  op_ttl op = 86400%Q /\ (op_ttl op == 24 * 60 * 60)%Q /\
  (cache_read (op_ttl op) (now env) (op_key op) (cache st) = Some df <->
     (now env - ins < op_ttl op)%Q) /\
  (cache_read (op_ttl op) (now env) (op_key op) (cache st) = None <->
     (op_ttl op <= now env - ins)%Q) /\
  (forall eps, (0 < eps)%Q -> (now env == ins + op_ttl op - eps)%Q ->
     call op env st = (Ret df, st)) /\
  (forall eps, (0 < eps)%Q -> (now env == ins + op_ttl op + eps)%Q ->
     cache_read (op_ttl op) (now env) (op_key op) (cache st) = None /\
     exists evs, trace (call op env st).2 = trace st ++ EvGetActive :: evs).
Proof.
  intros Hl. split; [by destruct op|]. split; [by destruct op|].
  rewrite (cache_read_entry _ _ _ _ _ _ Hl).
  split; [|split; [|split]].
  - destruct (ttl_valid (op_ttl op) ins (now env)) eqn:V.
    + apply ttl_valid_true in V. done.
    + apply ttl_valid_false in V. split; [done|]. intros H.
      exfalso. by apply (Qlt_not_le _ _ H).
  - destruct (ttl_valid (op_ttl op) ins (now env)) eqn:V.
    + apply ttl_valid_true in V. split; [done|]. intros H.
      exfalso. by apply (Qlt_not_le _ _ V).
    + apply ttl_valid_false in V. done.
  - intros eps He Hn. apply (entry_hit _ _ _ _ _ Hl). lra.
  - intros eps He Hn.
    assert (op_ttl op <= now env - ins)%Q as Hv by lra.
    pose proof (entry_miss _ _ _ _ _ Hl Hv) as Hm.
    rewrite (cache_read_entry _ _ _ _ _ _ Hl) in Hm. split; [done|].
    apply call_miss_fetches. by apply (entry_miss _ _ _ _ _ Hl).
Qed.

(** An entry stored at time 0, read one second before and one second
    after the 24 hours. *)
Lemma entry_valid_for_24_hours_witness :
  (call GetPriceAfterLaunch (env_down 86399) st_full = (Ret vivi_table, st_full)) /\
  (cache_read (op_ttl GetPriceAfterLaunch) (now (env_down 86401))
     (op_key GetPriceAfterLaunch) (cache st_full) = None /\
   exists evs, trace (call GetPriceAfterLaunch (env_down 86401) st_full).2 =
     trace st_full ++ EvGetActive :: evs).
Proof.
  split.
  - apply (proj1 (proj2 (proj2 (proj2 (proj2
      (entry_valid_for_24_hours GetPriceAfterLaunch (env_down 86399) st_full
         vivi_table 0%Q eq_refl))))) 1%Q); reflexivity.
  - apply (proj2 (proj2 (proj2 (proj2 (proj2
      (entry_valid_for_24_hours GetPriceAfterLaunch (env_down 86401) st_full
         vivi_table 0%Q eq_refl))))) 1%Q); reflexivity.
Defined.

(** ** Clearing the cache *)

(** Lines 125-128: the button empties the cache and asks for a rerun. *)
Lemma render_clear w env st s msg st1 :
  clear_cache_button w = true ->
  get_snowflake_session env (started st) = (Ret (s, msg), st1) ->
  render w env st =
  (Rerun, add_ui (UiSuccess "Cache cleared!")
            (set_cache ∅ (add_ui (UiSuccess msg) st1))).
Proof.
  intros Hc Hs. unfold render. rewrite bind_run.
  unfold init_session_state at 1, modify at 1. cbv beta iota. fold (started st).
  rewrite bind_run, Hs. cbv beta iota zeta.
  rewrite bind_run. cbn [st_success modify]. cbv beta iota.
  rewrite bind_run, str_lower_run, bind_run, str_lower_run, Hc. reflexivity.
Qed.

Lemma call_on_empty_cache op env st :
  cache st = ∅ ->
  cache_read (op_ttl op) (now env) (op_key op) (cache st) = None /\
  (exists evs, trace (call op env st).2 = trace st ++ EvGetActive :: evs) /\
  (forall df st', call op env st = (Ret df, st') ->
     cache st' = {[ op_key op := (df, now env) ]} /\
     count is_sql (new_events st st') = 1) /\
  (forall st', call op env st = (Stop, st') -> cache st' = ∅).
Proof.
  intros He.
  assert (cache_read (op_ttl op) (now env) (op_key op) (cache st) = None) as Hm.
  { apply cache_read_absent. by rewrite He. }
  split; [done|]. split; [by apply call_miss_fetches|]. split.
  - intros df st' H. rewrite (call_miss _ _ _ Hm) in H.
    destruct (op_body op env st) as [[d| | |] st2] eqn:Hb; try done.
    injection H as <- <-.
    destruct (op_body_frame _ _ _ _ _ Hb) as (Hc & _). split.
    + cbn. by rewrite Hc, He.
    + apply (op_body_sql_once _ _ _ _ _ Hb).
  - intros st' H.
    destruct (call_frame _ _ _ _ _ H) as (_ & _ & _ & Hs & _).
    by rewrite Hs.
Qed.

(** C8: [st.cache_data.clear()] leaves an empty cache, whatever it held
    and however old the entries were; the next call of any operation, at any
    time, finds nothing and runs its function again; the cache then holds
    the result of that call and nothing else.  The button of the page does
    this and asks for a rerun. *)
Theorem clear_removes_every_entry env st :
  exists st', cache_data_clear env st = (Ret tt, st') /\
    cache st' = ∅ /\ ui st' = ui st /\ trace st' = trace st /\
    (forall op env',
       cache_read (op_ttl op) (now env') (op_key op) (cache st') = None /\
       (exists evs, trace (call op env' st').2 = trace st' ++ EvGetActive :: evs) /\
       (forall df st'', call op env' st' = (Ret df, st'') ->
          cache st'' = {[ op_key op := (df, now env') ]} /\
          count is_sql (new_events st' st'') = 1) /\
       (forall st'', call op env' st' = (Stop, st'') -> cache st'' = ∅)) /\
    (forall w s msg st1,
       clear_cache_button w = true ->
       get_snowflake_session env (started st) = (Ret (s, msg), st1) ->
       exists st2, render w env st = (Rerun, st2) /\ cache st2 = ∅).
Proof.
  exists (set_cache ∅ st). split; [done|]. split; [done|]. split; [done|].
  split; [done|]. split.
  - intros op env'. by apply call_on_empty_cache.
  - intros w s msg st1 Hc Hs. rewrite (render_clear _ _ _ _ _ _ Hc Hs).
    by eexists.
Qed.

(** The button is pressed on a page whose cache is full. *)
Lemma clear_removes_every_entry_witness :
  exists st2,
    render w_clear (env_ambient 10 (inl vivi_table)) st_full = (Rerun, st2) /\
    cache st2 = ∅.
Proof.
  destruct (clear_removes_every_entry (env_ambient 10 (inl vivi_table)) st_full)
    as (st' & _ & _ & _ & _ & _ & H).
  apply (H w_clear ambient active_label
           (add_event EvGetActive (started st_full))); reflexivity.
Defined.

(** ** A query that raises *)

(** The search raises in the warehouse: the call returns the empty frame
    instead of failing, the frame is stored under the key, and the same
    search an hour later is answered from the cache although the warehouse
    would now answer. *)
Lemma sql_failure_is_cached :
  cache_read (op_ttl (SearchCards "vivi" "final")) (now env_sql_error)
    (op_key (SearchCards "vivi" "final")) (cache st0) = None /\
  (call (SearchCards "vivi" "final") env_sql_error st0).1 = Ret pd_DataFrame /\
  cache (call (SearchCards "vivi" "final") env_sql_error st0).2
    !! op_key (SearchCards "vivi" "final") = Some (pd_DataFrame, 0%Q) /\
  call (SearchCards "vivi" "final") (env_ambient 3600 (inl vivi_table))
    (call (SearchCards "vivi" "final") env_sql_error st0).2 =
  (Ret pd_DataFrame, (call (SearchCards "vivi" "final") env_sql_error st0).2).
Proof. repeat split; reflexivity. Qed.

(** C2, as the script has it: when the query of a miss raises, the
    operation catches the exception, writes the error to the page and
    returns the empty frame as its result; the cache stores that result
    under the key, and a call with the same key within the TTL is a hit. *)
Theorem sql_failure_returns_empty_frame op env st s lbl st1 e :
  cache_read (op_ttl op) (now env) (op_key op) (cache st) = None ->
  get_snowflake_session env st = (Ret (s, lbl), st1) ->
  run_sql env s (op_query op) = inr e ->
  exists st', call op env st = (Ret pd_DataFrame, st') /\
    ui st' = ui st ++ [UiError (op_error op e)] /\
    cache st' = <[op_key op := (pd_DataFrame, now env)]> (cache st) /\
    forall env2, (now env2 - now env < op_ttl op)%Q ->
      call op env2 st' = (Ret pd_DataFrame, st').
Proof.
  intros Hm Hs Hq. rewrite (call_miss _ _ _ Hm), op_body_run, Hs, Hq.
  pose proof (session_returns_quietly _ _ _ _ _ Hs) as Hu.
  destruct (session_frame _ _ _ _ Hs) as (Hc & _).
  eexists. split; [done|]. cbn. rewrite Hu, Hc. repeat split; try done.
  intros env2 Hv. apply (entry_hit _ _ _ _ (now env)); [|done].
  cbn. by rewrite lookup_insert_eq.
Qed.

Lemma sql_failure_returns_empty_frame_witness :
  exists st', call (SearchCards "vivi" "final") env_sql_error st0 =
      (Ret pd_DataFrame, st') /\
    ui st' = ui st0 ++
      [UiError (op_error (SearchCards "vivi" "final") "SQL compilation error")] /\
    cache st' = <[op_key (SearchCards "vivi" "final") :=
                    (pd_DataFrame, now env_sql_error)]> (cache st0) /\
    forall env2,
      (now env2 - now env_sql_error < op_ttl (SearchCards "vivi" "final"))%Q ->
      call (SearchCards "vivi" "final") env2 st' = (Ret pd_DataFrame, st').
Proof.
  apply (sql_failure_returns_empty_frame (SearchCards "vivi" "final")
           env_sql_error st0 ambient active_label (add_event EvGetActive st0)
           "SQL compilation error"); reflexivity.
Defined.

(** ** Empty results *)

(** C6: a query that succeeds with zero rows makes the operation return
    that table, an empty frame, without writing an error; a query that
    raises makes it return [pd.DataFrame()], after writing the error to
    the page; so the two calls differ in what they leave on the page, and,
    as soon as the table has a column, in the frame they return. *)
Theorem empty_result_is_not_an_error op env env' st s lbl st1 s' lbl' st1' df e :
  cache_read (op_ttl op) (now env) (op_key op) (cache st) = None ->
  cache_read (op_ttl op) (now env') (op_key op) (cache st) = None ->
  get_snowflake_session env st = (Ret (s, lbl), st1) ->
  get_snowflake_session env' st = (Ret (s', lbl'), st1') ->
  run_sql env s (op_query op) = inl df ->
  rows df = [] ->
  run_sql env' s' (op_query op) = inr e ->
  exists st2 st2',
    call op env st = (Ret df, st2) /\ df_empty df = true /\ ui st2 = ui st /\
    call op env' st = (Ret pd_DataFrame, st2') /\
    ui st2' = ui st ++ [UiError (op_error op e)] /\
    ui st2 <> ui st2' /\
    (columns df <> [] -> Ret df <> Ret pd_DataFrame).
Proof.
  intros Hm Hm' Hs Hs' Hq Hr Hq'.
  destruct (sql_failure_returns_empty_frame _ _ _ _ _ _ _ Hm' Hs' Hq')
    as (st2' & Hc' & Hu' & _).
  rewrite (call_miss _ _ _ Hm), op_body_run, Hs, Hq.
  pose proof (session_returns_quietly _ _ _ _ _ Hs) as Hu.
  eexists; exists st2'. split; [done|]. split.
  { unfold df_empty. rewrite Hr. by destruct (columns df). }
  split; [done|]. split; [done|]. split; [done|]. split.
  - cbn. rewrite Hu, Hu'. intros H. by apply app_self_nil in H.
  - intros Hcol [= ->]. by apply Hcol.
Qed.

Lemma empty_result_is_not_an_error_witness :
  exists st2 st2',
    call (GetCardPrices "no-such-id") (env_ambient 0 (inl no_rows)) st0 =
      (Ret no_rows, st2) /\
    df_empty no_rows = true /\ ui st2 = ui st0 /\
    call (GetCardPrices "no-such-id") env_sql_error st0 = (Ret pd_DataFrame, st2') /\
    ui st2' = ui st0 ++
      [UiError (op_error (GetCardPrices "no-such-id") "SQL compilation error")] /\
    ui st2 <> ui st2' /\
    Ret no_rows <> Ret pd_DataFrame.
Proof.
  destruct (empty_result_is_not_an_error (GetCardPrices "no-such-id")
              (env_ambient 0 (inl no_rows)) env_sql_error st0
              ambient active_label (add_event EvGetActive st0)
              ambient active_label (add_event EvGetActive st0)
              no_rows "SQL compilation error"
              eq_refl eq_refl eq_refl eq_refl eq_refl eq_refl eq_refl)
    as (st2 & st2' & H1 & H2 & H3 & H4 & H5 & H6 & H7).
  exists st2, st2'. repeat split; try assumption.
  apply H7. discriminate.
Defined.

(** ** The SQL text *)

Lemma occurrences_app c s1 s2 :
  occurrences c (s1 +:+ s2) = occurrences c s1 + occurrences c s2.
Proof. induction s1 as [|x s1 IH]; simpl; [done|]. rewrite IH. lia. Qed.

Lemma string_length_app s1 s2 :
  String.length (s1 +:+ s2) = String.length s1 + String.length s2.
Proof. induction s1 as [|x s1 IH]; simpl; [done|]. by rewrite IH. Qed.

Lemma op_query_length op :
  String.length (op_query op) =
  String.length (op_query (op_blank op)) + sum_over String.length (op_args op).
Proof.
  destruct op as [a b|c|]; [| |done].
  - unfold op_blank, op_query, search_query, op_args, sum_over.
    rewrite !string_length_app. simpl. lia.
  - unfold op_blank, op_query, prices_query, op_args, sum_over.
    rewrite !string_length_app. simpl. lia.
Qed.

Lemma op_query_occurrences ch op :
  occurrences ch (op_query op) =
  occurrences ch (op_query (op_blank op)) + sum_over (occurrences ch) (op_args op).
Proof.
  destruct op as [a b|c|]; [| |cbn; lia].
  - unfold op_blank, op_query, search_query, op_args, sum_over.
    rewrite !occurrences_app. simpl. lia.
  - unfold op_blank, op_query, prices_query, op_args, sum_over.
    rewrite !occurrences_app. simpl. lia.
Qed.

Example quote_is_not_escaped :
  search_query "urza's" "x' OR 'a'='a" =
  "SELECT * FROM TABLE(MTG_COST.PUBLIC.GET_CARD_ID('urza's', 'x' OR 'a'='a')) LIMIT 1000".
Proof. reflexivity. Qed.

Example minimal_variant_limit a b :
  Minimal.search_query a b =
  "SELECT * FROM TABLE(MTG_COST.PUBLIC.GET_CARD_ID('" +:+ a +:+ "', '" +:+ b +:+
  "')) LIMIT 100" /\
  Minimal.prices_query a = prices_query a.
Proof. done. Qed.

(** C9: the text an operation sends to the warehouse is its template with
    the arguments put in as they are: the one SQL event of a fetching call
    carries [op_query], which is the fixed text around the raw arguments;
    its length and its number of single quotes are those of the template
    plus those of the arguments, so nothing is escaped, quoted or bound. *)
Theorem query_is_verbatim_interpolation op env st s lbl st1 :
  cache_read (op_ttl op) (now env) (op_key op) (cache st) = None ->
  get_snowflake_session env st = (Ret (s, lbl), st1) ->
  new_events st1 (call op env st).2 = [EvSql s (op_query op)] /\
  op_query op =
    match op with
    | SearchCards search_term1 search_term2 =>
        "SELECT * FROM TABLE(MTG_COST.PUBLIC.GET_CARD_ID('" +:+ search_term1 +:+
        "', '" +:+ search_term2 +:+ "')) LIMIT 1000"
    | GetCardPrices card_id =>
        "SELECT * FROM TABLE(MTG_COST.PUBLIC.GET_CARD_PRICES('" +:+ card_id +:+ "'))"
    | GetPriceAfterLaunch => "SELECT * FROM price_after_launch"
    end /\
  String.length (op_query op) =
    String.length (op_query (op_blank op)) + sum_over String.length (op_args op) /\
  occurrences "'" (op_query op) =
    occurrences "'" (op_query (op_blank op)) + sum_over (occurrences "'") (op_args op).
Proof.
  intros Hm Hs. split; [|split; [by destruct op|split]].
  - rewrite (call_miss _ _ _ Hm), op_body_run, Hs.
    destruct (run_sql env s (op_query op)); cbn [snd];
      apply new_events_app; reflexivity.
  - apply op_query_length.
  - apply op_query_occurrences.
Qed.

Lemma query_is_verbatim_interpolation_witness :
  new_events (add_event EvGetActive st0)
    (call (SearchCards "urza's" "x' OR 'a'='a") (env_ambient 0 (inl vivi_table)) st0).2 =
    [EvSql ambient
       "SELECT * FROM TABLE(MTG_COST.PUBLIC.GET_CARD_ID('urza's', 'x' OR 'a'='a')) LIMIT 1000"] /\
  occurrences "'" (op_query (SearchCards "urza's" "x' OR 'a'='a")) = 4 + (1 + 4).
Proof.
  destruct (query_is_verbatim_interpolation (SearchCards "urza's" "x' OR 'a'='a")
              (env_ambient 0 (inl vivi_table)) st0 ambient active_label
              (add_event EvGetActive st0) eq_refl eq_refl) as (H1 & _ & _ & H2).
  split; [exact H1 | exact H2].
Defined.

(** * Further properties of the script *)

(** ** The secrets of the fallback path *)

Lemma secret_present env sec k v :
  secrets_snowflake env = Some sec -> sec !! k = Some v -> secret env k = inl v.
Proof. intros Hs Hk. unfold secret. by rewrite Hs, Hk. Qed.

Lemma secret_absent env sec k :
  secrets_snowflake env = Some sec -> sec !! k = None ->
  secret env k = inr (secret_error env k).
Proof. intros Hs Hk. unfold secret. by rewrite Hs, Hk. Qed.

(** X1: the dictionary of connection parameters is built exactly when the
    [snowflake] section holds all six keys, and then field by field from
    their values. *)
Theorem connection_parameters_iff env p :
  connection_parameters env = inl p <->
  exists sec, secrets_snowflake env = Some sec /\
    sec !! "account" = Some (cp_account p) /\
    sec !! "user" = Some (cp_user p) /\
    sec !! "password" = Some (cp_password p) /\
    sec !! "warehouse" = Some (cp_warehouse p) /\
    sec !! "database" = Some (cp_database p) /\
    sec !! "schema" = Some (cp_schema p).
Proof.
  split; [apply connection_parameters_fields|].
  intros (sec & Hs & H1 & H2 & H3 & H4 & H5 & H6).
  unfold connection_parameters.
  rewrite (secret_present _ _ _ _ Hs H1), (secret_present _ _ _ _ Hs H2),
    (secret_present _ _ _ _ Hs H3), (secret_present _ _ _ _ Hs H4),
    (secret_present _ _ _ _ Hs H5), (secret_present _ _ _ _ Hs H6).
  by destruct p.
Qed.

Lemma first_missing_secret env sec pre k post :
  secrets_snowflake env = Some sec ->
  secret_keys = pre ++ k :: post ->
  (forall k', k' ∈ pre -> is_Some (sec !! k')) ->
  sec !! k = None ->
  connection_parameters env = inr (secret_error env k).
Proof.
  intros Hs Hk Hpre Hmiss. unfold secret_keys in Hk.
  assert (forall k', k' ∈ pre -> exists v, secret env k' = inl v) as Hp.
  { intros k' Hin. destruct (Hpre k' Hin) as [v Hv]. exists v.
    by apply (secret_present _ sec). }
  pose proof (secret_absent _ _ _ Hs Hmiss) as Hm.
  unfold connection_parameters.
  destruct pre as [|k1 pre]; simplify_eq/=; [by rewrite Hm|].
  destruct (Hp "account") as [v1 ->]; [repeat constructor|].
  destruct pre as [|k2 pre]; simplify_eq/=; [by rewrite Hm|].
  destruct (Hp "user") as [v2 ->]; [repeat constructor|].
  destruct pre as [|k3 pre]; simplify_eq/=; [by rewrite Hm|].
  destruct (Hp "password") as [v3 ->]; [repeat constructor|].
  destruct pre as [|k4 pre]; simplify_eq/=; [by rewrite Hm|].
  destruct (Hp "warehouse") as [v4 ->]; [repeat constructor|].
  destruct pre as [|k5 pre]; simplify_eq/=; [by rewrite Hm|].
  destruct (Hp "database") as [v5 ->]; [repeat constructor|].
  destruct pre as [|k6 pre]; simplify_eq/=; [by rewrite Hm|].
  by destruct pre.
Qed.

(** X2: without an ambient session, a missing secret ends the call before
    any session is constructed: the page gets the connection error of the
    first key that is missing, in the order account, user, password,
    warehouse, database, schema, and of the section when the section is
    missing. *)
Theorem missing_secret_stops_before_create env st :
  active_session env = None ->
  (secrets_snowflake env = None ->
     get_snowflake_session env st =
     (Stop, add_ui (UiError (connect_failed (secret_error env "snowflake")))
              (add_event EvGetActive st))) /\
  (forall sec pre k post,
     secrets_snowflake env = Some sec ->
     secret_keys = pre ++ k :: post ->
     (forall k', k' ∈ pre -> is_Some (sec !! k')) ->
     sec !! k = None ->
     get_snowflake_session env st =
     (Stop, add_ui (UiError (connect_failed (secret_error env k)))
              (add_event EvGetActive st)) /\
     count is_create_attempt (new_events st (get_snowflake_session env st).2) = 0).
Proof.
  intros Ha. split.
  - intros Hn. apply session_no_config; [done|].
    unfold connection_parameters, secret. by rewrite Hn.
  - intros sec pre k post Hs Hk Hpre Hmiss.
    pose proof (first_missing_secret _ _ _ _ _ Hs Hk Hpre Hmiss) as Hc.
    rewrite (session_no_config env st _ Ha Hc). split; [done|].
    cbn [snd]. by rewrite (new_events_app _ _ [EvGetActive]).
Qed.

Lemma missing_secret_stops_before_create_witness :
  get_snowflake_session env_no_password st0 =
  (Stop, add_ui (UiError (connect_failed "missing key password"))
           (add_event EvGetActive st0)) /\
  count is_create_attempt
    (new_events st0 (get_snowflake_session env_no_password st0).2) = 0.
Proof.
  apply (proj2 (missing_secret_stops_before_create env_no_password st0 eq_refl)
           (delete "password" the_secrets) ["account"; "user"] "password"
           ["warehouse"; "database"; "schema"]); try reflexivity.
  intros k' Hk. apply list_elem_of_In in Hk.
  destruct Hk as [<-|[<-|[]]]; by eexists.
Defined.

(** ** A fetch that succeeds *)

(** X3: on a miss with a session at hand and a query that succeeds, the
    operation returns the table the warehouse gave, stores it under its key
    with the time of the call, sends that one query and writes nothing to
    the page. *)
Theorem fetch_returns_the_table op env st s lbl st1 df :
  cache_read (op_ttl op) (now env) (op_key op) (cache st) = None ->
  get_snowflake_session env st = (Ret (s, lbl), st1) ->
  run_sql env s (op_query op) = inl df ->
  exists st', call op env st = (Ret df, st') /\
    cache st' = <[op_key op := (df, now env)]> (cache st) /\
    trace st' = trace st1 ++ [EvSql s (op_query op)] /\
    ui st' = ui st /\
    selected_card_id st' = selected_card_id st.
Proof.
  intros Hm Hs Hq. rewrite (call_miss _ _ _ Hm), op_body_run, Hs, Hq.
  pose proof (session_returns_quietly _ _ _ _ _ Hs) as Hu.
  destruct (session_frame _ _ _ _ Hs) as (Hc & Hsel & _).
  eexists. split; [done|]. cbn. by rewrite Hc, Hu, Hsel.
Qed.

Lemma fetch_returns_the_table_witness :
  exists st', call (GetCardPrices default_card_id)
                (env_credentials 5 (inl vivi_table)) st0 = (Ret vivi_table, st') /\
    cache st' = <[op_key (GetCardPrices default_card_id) := (vivi_table, 5%Q)]> (cache st0) /\
    trace st' = [EvGetActive; EvCreate the_parameters] ++
                [EvSql built (op_query (GetCardPrices default_card_id))] /\
    ui st' = ui st0 /\
    selected_card_id st' = selected_card_id st0.
Proof.
  apply (fetch_returns_the_table (GetCardPrices default_card_id)
           (env_credentials 5 (inl vivi_table)) st0 built credentials_label
           (add_event (EvCreate the_parameters) (add_event EvGetActive st0))
           vivi_table); reflexivity.
Defined.

(** ** Keys *)

Lemma op_key_inj op1 op2 : op_key op1 = op_key op2 -> op1 = op2.
Proof. destruct op1, op2; cbn; intros H; by simplify_eq. Qed.

Lemma call_other_key op env st k :
  k <> op_key op -> cache (call op env st).2 !! k = cache st !! k.
Proof.
  intros Hk. destruct (call op env st) as [o st'] eqn:H. cbn [snd].
  destruct (call_frame _ _ _ _ _ H) as (_ & Hr & Hc & Hs & Hd & _).
  destruct o as [df| | |]; try done.
  - destruct (Hd df eq_refl) as [E|E]; rewrite E; [done|].
    by rewrite lookup_insert_ne.
  - by rewrite (Hs eq_refl).
Qed.

(** X4: a call writes to the cache at its own key only: what is stored
    for another operation, or for the same operation with other arguments,
    is left as it was, whether the call hits, fetches or stops. *)
Theorem call_keeps_other_entries op op' env st :
  op' <> op ->
  op_key op' <> op_key op /\
  cache (call op env st).2 !! op_key op' = cache st !! op_key op'.
Proof.
  intros Hne.
  assert (op_key op' <> op_key op) as Hk by (intros H; by apply Hne, op_key_inj).
  split; [done|]. by apply call_other_key.
Qed.

Lemma call_keeps_other_entries_witness :
  op_key (SearchCards "vivi" "final fantasy") <> op_key (SearchCards "vivi" "final") /\
  cache (call (SearchCards "vivi" "final") (env_ambient 10 (inl no_rows)) st_full).2
    !! op_key (SearchCards "vivi" "final fantasy") =
  cache st_full !! op_key (SearchCards "vivi" "final fantasy").
Proof.
  apply (call_keeps_other_entries (SearchCards "vivi" "final")
           (SearchCards "vivi" "final fantasy")). discriminate.
Defined.

(** ** One operation, many calls *)

Lemma calls_other_key op envs st k :
  k <> op_key op -> cache (calls op envs st) !! k = cache st !! k.
Proof.
  intros Hk. revert st. induction envs as [|env envs IH]; intros st; [done|].
  change (calls op (env :: envs) st) with (calls op envs (call op env st).2).
  rewrite IH. by apply call_other_key.
Qed.

(** X5: however often an operation is called with the same arguments,
    and whatever the calls meet, the cache gains at most the one entry of
    its key; [get_price_after_launch], which has no argument, thus fills
    at most one entry of an empty cache. *)
Theorem calls_fill_one_entry op envs st :
  dom (cache (calls op envs st)) ⊆ dom (cache st) ∪ {[op_key op]} /\
  (cache st = ∅ -> size (cache (calls op envs st)) <= 1).
Proof.
  assert (dom (cache (calls op envs st)) ⊆ dom (cache st) ∪ {[op_key op]}) as Hd.
  { intros k Hk. destruct (decide (k = op_key op)) as [->|Hne]; [set_solver|].
    apply elem_of_union_l. apply elem_of_dom. apply elem_of_dom in Hk.
    by rewrite <- (calls_other_key op envs st k Hne). }
  split; [done|].
  intros He. rewrite He, dom_empty_L, union_empty_l_L in Hd.
  rewrite <- size_dom. apply subseteq_size in Hd.
  by rewrite size_singleton in Hd.
Qed.

Lemma calls_fill_one_entry_witness :
  size (cache (calls GetPriceAfterLaunch
                 [env_down 0; env_ambient 1 (inl vivi_table);
                  env_ambient 90000 (inr "timeout"); env_credentials 200000 (inl no_rows)]
                 st0)) <= 1.
Proof.
  apply (proj2 (calls_fill_one_entry GetPriceAfterLaunch
    [env_down 0; env_ambient 1 (inl vivi_table);
     env_ambient 90000 (inr "timeout"); env_credentials 200000 (inl no_rows)] st0)).
  reflexivity.
Defined.

(** ** Entries stay until they are cleared *)

Lemma ke_still {A} (m : App A) :
  (forall env st, cache (m env st).2 = cache st) -> keeps_entries m.
Proof. intros H env st k Hk. by rewrite H. Qed.

Lemma ke_bind {A B} (m : App A) (f : A -> App B) :
  keeps_entries m -> (forall a, keeps_entries (f a)) -> keeps_entries (m ≫= f).
Proof.
  intros Hm Hf env st k Hk. rewrite bind_run.
  pose proof (Hm env st k Hk) as H1.
  destruct (m env st) as [[a| | |] st1]; cbn [snd] in *; try done.
  by apply Hf.
Qed.

Lemma ke_message (e : UiEvent) : keeps_entries (modify (add_ui e)).
Proof. by apply ke_still. Qed.

Lemma ke_read_selected : keeps_entries read_selected.
Proof.
  apply ke_still. intros env st. unfold read_selected. rewrite bind_run. cbn.
  by destruct (selected_card_id st).
Qed.

Lemma ke_session : keeps_entries get_snowflake_session.
Proof.
  apply ke_still. intros env st.
  destruct (get_snowflake_session env st) as [o st'] eqn:H.
  by destruct (session_frame _ _ _ _ H) as (Hc & _).
Qed.

Lemma ke_call op : keeps_entries (call op).
Proof.
  intros env st k Hk. destruct (call op env st) as [o st'] eqn:H. cbn [snd].
  destruct (call_frame _ _ _ _ _ H) as (_ & Hr & Hc & Hs & Hd & _).
  destruct o as [df| | |]; try done.
  - destruct (Hd df eq_refl) as [E|E]; rewrite E; [done|].
    destruct (decide (op_key op = k)) as [->|Hne].
    + rewrite lookup_insert_eq. by eexists.
    + by rewrite lookup_insert_ne.
  - by rewrite (Hs eq_refl).
Qed.

Lemma ke_search_section w a b : keeps_entries (search_section w a b).
Proof.
  unfold search_section.
  destruct (search_button w || truthy a && truthy b); [|by apply ke_still].
  apply ke_bind; [apply (ke_call (SearchCards a b))|]. intros df.
  destruct (negb (df_empty df)); [|apply ke_message].
  destruct (table_event w df) as [| |id]; [by apply ke_still|apply ke_message|].
  apply ke_bind; [apply ke_read_selected|]. intros sel.
  destruct (decide (sel = id)); [apply ke_message|].
  apply ke_bind; [by apply ke_still|]. intros ?.
  apply ke_bind; [apply ke_message|]. intros ?. by apply ke_still.
Qed.

Lemma ke_price_section w : keeps_entries (price_section w).
Proof.
  unfold price_section.
  apply ke_bind; [apply ke_read_selected|]. intros sel. cbv zeta.
  apply ke_bind.
  { by destruct (decide (card_id_input w sel = sel)); apply ke_still. }
  intros ?. destruct (truthy (card_id_input w sel)); [|apply ke_message].
  apply ke_bind; [apply (ke_call (GetCardPrices _))|]. intros df.
  destruct (negb (df_empty df)); [|apply ke_message].
  by destruct (prices_view w df); apply ke_still.
Qed.

Lemma ke_launch_section w : keeps_entries (launch_section w).
Proof.
  unfold launch_section.
  apply ke_bind; [apply (ke_call GetPriceAfterLaunch)|]. intros df.
  destruct (negb (df_empty df)); [|apply ke_message].
  by destruct (launch_view w df); apply ke_still.
Qed.

(** X13: a pass in which the Clear button is not pressed removes nothing
    from the cache, however it ends: every key that had an entry before the
    pass has one after it (expired entries included; an entry is only ever
    replaced by a newer one of its key). *)
Theorem render_keeps_entries w env st k :
  clear_cache_button w = false ->
  is_Some (cache st !! k) ->
  is_Some (cache (render w env st).2 !! k).
Proof.
  intros Hc. revert env st k.
  change (keeps_entries (render w)). unfold render.
  apply ke_bind.
  { apply ke_still. intros env st. apply started_frame. }
  intros ?. apply ke_bind; [apply ke_session|].
  intros [session msg]. cbv beta iota zeta.
  apply ke_bind; [apply ke_message|]. intros ?; cbv beta.
  apply ke_bind; [by apply ke_still|]. intros search_term1; cbv beta.
  apply ke_bind; [by apply ke_still|]. intros search_term2; cbv beta.
  apply ke_bind; [rewrite Hc; by apply ke_still|]. intros ?; cbv beta.
  apply ke_bind; [apply ke_search_section|]. intros ?; cbv beta.
  apply ke_bind; [apply ke_price_section|]. intros ?; cbv beta.
  apply ke_launch_section.
Qed.

(** Two days after it was stored, the entry of the launch view is
    refreshed by the pass, not dropped. *)
Lemma render_keeps_entries_witness :
  is_Some (cache (render w_default (env_ambient 172800 (inl no_rows)) st_full).2
             !! get_price_after_launch_key).
Proof.
  apply (render_keeps_entries w_default (env_ambient 172800 (inl no_rows)) st_full
           get_price_after_launch_key); [reflexivity|]. by eexists.
Defined.

(** ** Where a pass can raise *)

Lemma started_selected st : is_Some (selected_card_id (started st)).
Proof. unfold started. destruct (selected_card_id st) eqn:E; [by rewrite E|done]. Qed.

Lemma session_available_returns env st :
  session_available env ->
  exists s lbl st1, get_snowflake_session env st = (Ret (s, lbl), st1).
Proof.
  intros [[s Ha]|[s Hf]].
  - rewrite (session_active env st s Ha). by eexists _, _, _.
  - destruct (active_session env) as [s'|] eqn:Ha.
    + rewrite (session_active env st s' Ha). by eexists _, _, _.
    + unfold fallback in Hf.
      destruct (connection_parameters env) as [p|] eqn:Hc; [|done].
      rewrite (session_credentials env st p s Ha Hc Hf). by eexists _, _, _.
Qed.

Lemma read_selected_run env st id :
  selected_card_id st = Some id -> read_selected env st = (Ret id, st).
Proof. intros H. unfold read_selected. rewrite bind_run. cbn. by rewrite H. Qed.

(** What a call that returned tells about the state it leaves. *)
Lemma call_returned op env st df st' :
  call op env st = (Ret df, st') ->
  selected_card_id st' = selected_card_id st /\
  exists ins, cache st' !! op_key op = Some (df, ins).
Proof.
  intros H. destruct (call_frame _ _ _ _ _ H) as (Hsel & _).
  destruct (call_returns_entry _ _ _ _ _ H) as (ins & Hl & _).
  split; [done|]. by exists ins.
Qed.

Lemma search_section_outcome w a b env st o st' :
  is_Some (selected_card_id st) ->
  search_section w a b env st = (o, st') ->
  is_Some (selected_card_id st') /\
  (o = Crash ->
   exists df ins, cache st' !! search_cards_key a b = Some (df, ins) /\
     df_empty df = false /\ table_event w df = TableRaised).
Proof.
  intros Hs. unfold search_section.
  destruct (search_button w || truthy a && truthy b); [|by intros [= <- <-]].
  rewrite bind_run. change (search_cards a b) with (call (SearchCards a b)).
  destruct (call (SearchCards a b) env st) as [o1 st1] eqn:Hc.
  destruct (call_frame _ _ _ _ _ Hc) as (Hsel & Hnr & Hnc & _).
  destruct o1 as [df| | |]; try done.
  2:{ intros [= <- <-]. by rewrite Hsel. }
  destruct (call_returned _ _ _ _ _ Hc) as (_ & ins & Hl).
  destruct (negb (df_empty df)) eqn:E.
  2:{ intros [= <- <-]. cbn. by rewrite Hsel. }
  apply negb_true_iff in E.
  destruct (table_event w df) as [| |id] eqn:T.
  - intros [= <- <-]. rewrite Hsel. split; [done|]. intros _. by exists df, ins.
  - intros [= <- <-]. cbn. by rewrite Hsel.
  - rewrite bind_run. rewrite <- Hsel in Hs. destruct Hs as [sel Hs].
    rewrite (read_selected_run _ _ _ Hs).
    destruct (decide (sel = id)); intros [= <- <-]; cbn; [by rewrite Hs|done].
Qed.

Lemma price_section_outcome w env st o st' :
  is_Some (selected_card_id st) ->
  price_section w env st = (o, st') ->
  is_Some (selected_card_id st') /\
  (o = Crash ->
   exists card_id df ins, cache st' !! get_card_prices_key card_id = Some (df, ins) /\
     df_empty df = false /\ prices_view w df = false).
Proof.
  intros [sel Hs]. unfold price_section.
  rewrite bind_run, (read_selected_run _ _ _ Hs). cbv beta iota zeta.
  rewrite bind_run.
  set (cid := card_id_input w sel).
  set (st1 := if decide (cid = sel) then st else set_selected (Some cid) st).
  assert ((if decide (cid = sel) then mret tt else modify (set_selected (Some cid)))
            env st = (Ret tt, st1)) as ->.
  { unfold st1. by destruct (decide (cid = sel)). }
  assert (is_Some (selected_card_id st1)) as H1.
  { unfold st1. destruct (decide (cid = sel)); [by rewrite Hs|done]. }
  destruct (truthy cid); [|by intros [= <- <-]].
  rewrite bind_run. change (get_card_prices cid) with (call (GetCardPrices cid)).
  destruct (call (GetCardPrices cid) env st1) as [o1 st2] eqn:Hc.
  destruct (call_frame _ _ _ _ _ Hc) as (Hsel & Hnr & Hnc & _).
  destruct o1 as [df| | |]; try done.
  2:{ intros [= <- <-]. by rewrite Hsel. }
  destruct (call_returned _ _ _ _ _ Hc) as (_ & ins & Hl).
  destruct (negb (df_empty df)) eqn:E.
  2:{ intros [= <- <-]. cbn. by rewrite Hsel. }
  apply negb_true_iff in E.
  destruct (prices_view w df) eqn:V; intros [= <- <-]; rewrite Hsel; [done|].
  split; [done|]. intros _. by exists cid, df, ins.
Qed.

Lemma launch_section_outcome w env st o st' :
  is_Some (selected_card_id st) ->
  launch_section w env st = (o, st') ->
  is_Some (selected_card_id st') /\
  (o = Crash ->
   exists df ins, cache st' !! get_price_after_launch_key = Some (df, ins) /\
     df_empty df = false /\ launch_view w df = false).
Proof.
  intros Hs. unfold launch_section. rewrite bind_run.
  change get_price_after_launch with (call GetPriceAfterLaunch).
  destruct (call GetPriceAfterLaunch env st) as [o1 st1] eqn:Hc.
  destruct (call_frame _ _ _ _ _ Hc) as (Hsel & Hnr & Hnc & _).
  destruct o1 as [df| | |]; try done.
  2:{ intros [= <- <-]. by rewrite Hsel. }
  destruct (call_returned _ _ _ _ _ Hc) as (_ & ins & Hl).
  destruct (negb (df_empty df)) eqn:E.
  2:{ intros [= <- <-]. cbn. by rewrite Hsel. }
  apply negb_true_iff in E.
  destruct (launch_view w df) eqn:V; intros [= <- <-]; rewrite Hsel; [done|].
  split; [done|]. intros _. by exists df, ins.
Qed.

(** X6: a pass ends in an uncaught exception only where a display block
    raises on the non-empty result of its section's operation, and that
    result is then in the cache under the operation's key; neither the
    session state, nor the cache, nor the connection, nor a query that
    raises makes the pass raise.  Lines 9-10 set the selected card before
    anything reads it, and it is set when the pass ends, however it
    ends. *)
Theorem render_raises_only_in_display w env st :
  is_Some (selected_card_id (render w env st).2) /\
  ((render w env st).1 = Crash ->
   exists op df ins,
     cache (render w env st).2 !! op_key op = Some (df, ins) /\
     df_empty df = false /\
     display_raises w op df).
Proof.
  destruct (render w env st) as [o st'] eqn:H. cbn [fst snd].
  unfold render in H. rewrite bind_run in H.
  unfold init_session_state at 1, modify at 1 in H. cbv beta iota in H.
  rewrite bind_run in H.
  destruct (get_snowflake_session env (started st)) as [o1 st1] eqn:Hs.
  destruct (session_frame _ _ _ _ Hs) as (_ & Hsel1 & _).
  destruct (session_never_reruns _ _ _ _ Hs) as [Hnr Hnc].
  pose proof (started_selected st) as H0. rewrite <- Hsel1 in H0.
  destruct o1 as [[s msg]| | |]; try done.
  2:{ by injection H as <- <-. }
  cbv beta iota zeta in H. rewrite bind_run in H.
  cbn [st_success modify] in H. cbv beta iota in H.
  rewrite bind_run, str_lower_run, bind_run, str_lower_run in H.
  cbv beta iota in H.
  set (t1 := py_lower env (search_term1_raw w)) in *.
  set (t2 := py_lower env (search_term2_raw w)) in *.
  set (st2 := add_ui (UiSuccess msg) st1) in *.
  assert (is_Some (selected_card_id st2)) as H2 by done.
  rewrite bind_run in H.
  destruct (clear_cache_button w).
  { cbn in H. by injection H as <- <-. }
  cbn [mret app_ret] in H. cbv beta iota in H.
  rewrite bind_run in H.
  destruct (search_section w t1 t2 env st2) as [o3 st3] eqn:H3.
  destruct (search_section_outcome _ _ _ _ _ _ _ H2 H3) as [S3 C3].
  destruct o3 as [[]| | |]; try (by injection H as <- <-).
  2:{ injection H as <- <-. split; [done|]. intros _.
      destruct (C3 eq_refl) as (df & ins & Hl & He & Hr).
      by exists (SearchCards t1 t2), df, ins. }
  rewrite bind_run in H.
  destruct (price_section w env st3) as [o4 st4] eqn:H4.
  destruct (price_section_outcome _ _ _ _ _ S3 H4) as [S4 C4].
  destruct o4 as [[]| | |]; try (by injection H as <- <-).
  2:{ injection H as <- <-. split; [done|]. intros _.
      destruct (C4 eq_refl) as (cid & df & ins & Hl & He & Hr).
      by exists (GetCardPrices cid), df, ins. }
  destruct (launch_section_outcome _ _ _ _ _ S4 H) as [S5 C5].
  split; [done|]. intros ->.
  destruct (C5 eq_refl) as (df & ins & Hl & He & Hr).
  by exists GetPriceAfterLaunch, df, ins.
Qed.

(** The warehouse answers the search with a table of two columns: line
    149 raises, and the table is in the cache under the key of the
    search. *)
Lemma render_raises_only_in_display_witness :
  exists op df ins,
    cache (render w_page (env_ambient 0 (inl vivi_table)) st0).2 !! op_key op =
      Some (df, ins) /\
    df_empty df = false /\
    display_raises w_page op df.
Proof.
  apply (proj2 (render_raises_only_in_display w_page
                  (env_ambient 0 (inl vivi_table)) st0)).
  reflexivity.
Defined.

(** ** A failing query does not end the pass *)

Lemma ready_frame w env st st' :
  cache st' = cache st -> selected_card_id st' = selected_card_id st ->
  ready w env st -> ready w env st'.
Proof. intros Hc Hs [H1 H2]. split; [by rewrite Hs|]. by rewrite Hc. Qed.

Lemma shown_empty w op : shown w op pd_DataFrame.
Proof. by left. Qed.

(** With a session at hand, a call returns a table that lets the pass go
    on, if the tables of the cache and of the warehouse do. *)
Lemma call_ready w op env st :
  session_available env ->
  (forall op' s df, run_sql env s (op_query op') = inl df -> shown w op' df) ->
  ready w env st ->
  exists df st', call op env st = (Ret df, st') /\
    shown w op df /\ ready w env st' /\
    is_Some (cache st' !! op_key op) /\
    selected_card_id st' = selected_card_id st.
Proof.
  intros Ha Hw [Hs Hc].
  destruct (cache_read (op_ttl op) (now env) (op_key op) (cache st)) as [d|] eqn:Hr.
  - rewrite (call_hit _ _ _ _ Hr). exists d, st.
    destruct (cache_read_Some _ _ _ _ _ Hr) as (ins & Hl & _).
    split; [done|]. split; [by apply Hc|]. split; [by split|].
    split; [by eexists|done].
  - rewrite (call_miss _ _ _ Hr), op_body_run.
    destruct (session_available_returns env st Ha) as (s & lbl & st1 & Hg).
    rewrite Hg. destruct (session_frame _ _ _ _ Hg) as (Hc1 & Hsel1 & _).
    assert (forall df st2,
      shown w op df ->
      cache st2 = <[op_key op := (df, now env)]> (cache st) ->
      selected_card_id st2 = selected_card_id st ->
      shown w op df /\ ready w env st2 /\
      is_Some (cache st2 !! op_key op) /\
      selected_card_id st2 = selected_card_id st) as Hstore.
    { intros df st2 Hd E1 E2. split; [done|]. split; [split|split; [|done]].
      - by rewrite E2.
      - intros op' d. rewrite E1. unfold cache_read.
        destruct (decide (op_key op = op_key op')) as [Heq|Hne].
        + rewrite <- Heq, lookup_insert_eq. apply op_key_inj in Heq as <-.
          by destruct (ttl_valid _ _ _); intros [= <-].
        + rewrite lookup_insert_ne by done. apply (Hc op' d).
      - rewrite E1, lookup_insert_eq. by eexists. }
    destruct (run_sql env s (op_query op)) as [df|e] eqn:Hq.
    + eexists df, _. split; [done|]. apply Hstore.
      * by apply (Hw op s).
      * cbn. by rewrite Hc1.
      * done.
    + eexists pd_DataFrame, _. split; [done|]. apply Hstore.
      * apply shown_empty.
      * cbn. by rewrite Hc1.
      * done.
Qed.

Lemma search_section_ready w a b env st :
  session_available env ->
  (forall op' s df, run_sql env s (op_query op') = inl df -> shown w op' df) ->
  ready w env st ->
  exists st', search_section w a b env st = (Ret tt, st') /\ ready w env st' /\
    selected_card_id st' = selected_card_id st.
Proof.
  intros Ha Hw Hr. unfold search_section.
  destruct (search_button w || truthy a && truthy b); [|by exists st].
  rewrite bind_run. change (search_cards a b) with (call (SearchCards a b)).
  destruct (call_ready w (SearchCards a b) env st Ha Hw Hr)
    as (df & st1 & -> & Hd & Hr1 & _ & Hsel).
  destruct (negb (df_empty df)) eqn:E.
  - destruct Hd as [Hd|Hd]; [by rewrite Hd in E|]. cbn in Hd. rewrite Hd.
    eexists. split; [done|]. split; [by apply (ready_frame w env st1)|done].
  - eexists. split; [done|]. split; [by apply (ready_frame w env st1)|done].
Qed.

Lemma price_section_ready w env st :
  session_available env ->
  (forall op' s df, run_sql env s (op_query op') = inl df -> shown w op' df) ->
  ready w env st ->
  exists st', price_section w env st = (Ret tt, st') /\ ready w env st' /\
    forall sel, selected_card_id st = Some sel ->
      truthy (card_id_input w sel) = true ->
      is_Some (cache st' !! get_card_prices_key (card_id_input w sel)).
Proof.
  intros Ha Hw Hr. pose proof Hr as [[sel Hs] _]. unfold price_section.
  rewrite bind_run, (read_selected_run _ _ _ Hs). cbv beta iota zeta.
  rewrite bind_run.
  set (cid := card_id_input w sel).
  set (st1 := if decide (cid = sel) then st else set_selected (Some cid) st).
  assert ((if decide (cid = sel) then mret tt else modify (set_selected (Some cid)))
            env st = (Ret tt, st1)) as ->.
  { unfold st1. by destruct (decide (cid = sel)). }
  assert (ready w env st1) as Hr1.
  { unfold st1. destruct (decide (cid = sel)); [done|].
    destruct Hr as [_ Hc]. by split. }
  destruct (truthy cid) eqn:Ht.
  - rewrite bind_run. change (get_card_prices cid) with (call (GetCardPrices cid)).
    destruct (call_ready w (GetCardPrices cid) env st1 Ha Hw Hr1)
      as (df & st2 & -> & Hd & Hr2 & Hk & _).
    assert (forall sel', selected_card_id st = Some sel' ->
              truthy (card_id_input w sel') = true ->
              is_Some (cache st2 !! get_card_prices_key (card_id_input w sel'))) as Hk'.
    { intros sel' Hs' _. rewrite Hs in Hs'. by injection Hs' as <-. }
    destruct (negb (df_empty df)) eqn:E.
    + destruct Hd as [Hd|Hd]; [by rewrite Hd in E|]. cbn in Hd. rewrite Hd.
      by exists st2.
    + eexists. split; [done|]. split; [by apply (ready_frame w env st2)|done].
  - eexists. split; [done|]. split; [by apply (ready_frame w env st1)|].
    intros sel' Hs' Ht'. rewrite Hs in Hs'. injection Hs' as <-.
    fold cid in Ht'. congruence.
Qed.

Lemma launch_section_ready w env st :
  session_available env ->
  (forall op' s df, run_sql env s (op_query op') = inl df -> shown w op' df) ->
  ready w env st ->
  exists st', launch_section w env st = (Ret tt, st') /\
    is_Some (cache st' !! get_price_after_launch_key) /\
    forall k, is_Some (cache st !! k) -> is_Some (cache st' !! k).
Proof.
  intros Ha Hw Hr.
  assert (forall k, is_Some (cache st !! k) ->
            is_Some (cache (launch_section w env st).2 !! k)) as Hke.
  { intros k. apply ke_launch_section. }
  unfold launch_section in *. rewrite bind_run in *.
  change get_price_after_launch with (call GetPriceAfterLaunch) in *.
  destruct (call_ready w GetPriceAfterLaunch env st Ha Hw Hr)
    as (df & st1 & Hc & Hd & _ & Hk & _).
  rewrite Hc in *.
  destruct (negb (df_empty df)) eqn:E.
  - destruct Hd as [Hd|Hd]; [by rewrite Hd in E|]. cbn in Hd. rewrite Hd in *.
    by exists st1.
  - eexists. by split.
Qed.

(** X7: when a session can be had, the Clear button is not pressed, and
    every table the pass can get, from the warehouse or from the cache, is
    either empty or displayed by its section without an exception and
    without a selected row, the pass runs to its last line: a query that
    raises or finds nothing does not keep the sections after it from
    running.  The launch view has then been asked for, and so has the
    price history when the Card ID box is filled in: their results are in
    the cache. *)
Theorem render_runs_to_the_end w env st :
  session_available env ->
  clear_cache_button w = false ->
  (forall op s df, run_sql env s (op_query op) = inl df -> shown w op df) ->
  (forall op df,
     cache_read (op_ttl op) (now env) (op_key op) (cache st) = Some df ->
     shown w op df) ->
  (render w env st).1 = Ret tt /\
  is_Some (cache (render w env st).2 !! get_price_after_launch_key) /\
  (forall sel, selected_card_id (started st) = Some sel ->
     truthy (card_id_input w sel) = true ->
     is_Some (cache (render w env st).2 !! get_card_prices_key (card_id_input w sel))).
Proof.
  intros Ha Hc Hw Hcache.
  destruct (render w env st) as [o st'] eqn:H. cbn [fst snd].
  unfold render in H. rewrite bind_run in H.
  unfold init_session_state at 1, modify at 1 in H. cbv beta iota in H.
  rewrite bind_run in H.
  destruct (session_available_returns env (started st) Ha) as (s & msg & st1 & Hs).
  rewrite Hs in H. cbv beta iota zeta in H.
  destruct (session_frame _ _ _ _ Hs) as (Hc1 & Hsel1 & _).
  destruct (started_frame st) as (Hc0 & _).
  rewrite bind_run in H. cbn [st_success modify] in H. cbv beta iota in H.
  rewrite bind_run, str_lower_run, bind_run, str_lower_run in H.
  cbv beta iota in H.
  set (t1 := py_lower env (search_term1_raw w)) in *.
  set (t2 := py_lower env (search_term2_raw w)) in *.
  set (st2 := add_ui (UiSuccess msg) st1) in *.
  assert (ready w env st2) as R2.
  { split; [cbn; rewrite Hsel1; apply started_selected|].
    cbn. rewrite Hc1, Hc0. apply Hcache. }
  rewrite Hc, bind_run in H. cbn [mret app_ret] in H. cbv beta iota in H.
  rewrite bind_run in H.
  destruct (search_section_ready w t1 t2 env st2 Ha Hw R2) as (st3 & H3 & R3 & E3).
  rewrite H3, bind_run in H.
  destruct (price_section_ready w env st3 Ha Hw R3) as (st4 & H4 & R4 & K4).
  rewrite H4 in H.
  destruct (launch_section_ready w env st4 Ha Hw R4) as (st5 & H5 & K5 & Hke).
  rewrite H5 in H. injection H as <- <-.
  split; [done|]. split; [done|].
  intros sel Hsel Ht. apply Hke, K4; [|done].
  rewrite E3. cbn. by rewrite Hsel1.
Qed.

Lemma warehouse_shown op s df :
  run_sql (env_warehouse 0) s (op_query op) = inl df -> shown w_page op df.
Proof.
  destruct op as [a b|c|]; cbn; intros [= <-]; by right.
Qed.

(** The opening page against the warehouse of the examples: the three
    tables are shown, and the pass runs to its end. *)
Lemma render_runs_to_the_end_witness :
  (render w_page (env_warehouse 0) st0).1 = Ret tt /\
  is_Some (cache (render w_page (env_warehouse 0) st0).2 !! get_price_after_launch_key) /\
  (forall sel, selected_card_id (started st0) = Some sel ->
     truthy (card_id_input w_page sel) = true ->
     is_Some (cache (render w_page (env_warehouse 0) st0).2
                !! get_card_prices_key (card_id_input w_page sel))).
Proof.
  apply (render_runs_to_the_end w_page (env_warehouse 0) st0).
  - left. by eexists.
  - reflexivity.
  - apply warehouse_shown.
  - intros op df H. destruct op; discriminate H.
Defined.

(** ** How much a pass asks of the outside *)

Lemma bd_weaken {A} (m : App A) a c q a' c' q' :
  a <= a' -> c <= c' -> q <= q' -> bounded a c q m -> bounded a' c' q' m.
Proof.
  intros Ha Hc Hq H env st. destruct (H env st) as (evs & Ht & H1 & H2 & H3).
  exists evs. repeat split; [done|lia..].
Qed.

Lemma bd_still {A} (m : App A) :
  (forall env st, trace (m env st).2 = trace st) -> bounded 0 0 0 m.
Proof.
  intros H env st. exists []. rewrite H, app_nil_r. repeat split; cbn; lia.
Qed.

Lemma bd_bind {A B} (m : App A) (f : A -> App B) a1 c1 q1 a2 c2 q2 :
  bounded a1 c1 q1 m -> (forall x, bounded a2 c2 q2 (f x)) ->
  bounded (a1 + a2) (c1 + c2) (q1 + q2) (m ≫= f).
Proof.
  intros Hm Hf env st. rewrite bind_run.
  destruct (Hm env st) as (evs1 & Ht1 & Ha1 & Hc1 & Hq1).
  destruct (m env st) as [[x| | |] st1]; cbn [snd] in *;
    try (exists evs1; repeat split; [done|lia..]).
  destruct (Hf x env st1) as (evs2 & Ht2 & Ha2 & Hc2 & Hq2).
  exists (evs1 ++ evs2). rewrite Ht2, Ht1, <- app_assoc, !count_app.
  repeat split; try done; lia.
Qed.

Lemma bd_message (e : UiEvent) : bounded 0 0 0 (modify (add_ui e)).
Proof. by apply bd_still. Qed.

Lemma bd_read_selected : bounded 0 0 0 read_selected.
Proof.
  apply bd_still. intros env st. unfold read_selected. rewrite bind_run. cbn.
  by destruct (selected_card_id st).
Qed.

Lemma bd_session : bounded 1 1 0 get_snowflake_session.
Proof.
  intros env st. destruct (get_snowflake_session env st) as [o st'] eqn:H.
  destruct (session_frame _ _ _ _ H) as (_ & _ & evs & Ht & Ha & Hc & Hq).
  exists (EvGetActive :: evs). cbn [snd]. split; [done|].
  change (EvGetActive :: evs) with ([EvGetActive] ++ evs).
  rewrite !count_app, Ha, Hq. cbn. repeat split; lia.
Qed.

Lemma bd_call op : bounded 1 1 1 (call op).
Proof.
  intros env st.
  destruct (cache_read (op_ttl op) (now env) (op_key op) (cache st)) as [d|] eqn:Hr.
  - rewrite (call_hit _ _ _ _ Hr). exists []. cbn. rewrite app_nil_r.
    repeat split; lia.
  - rewrite (call_miss _ _ _ Hr), op_body_run.
    destruct (bd_session env st) as (evs & Ht & Ha & Hc & Hq).
    destruct (get_snowflake_session env st) as [[[s l]| | |] st1]; cbn [snd] in *;
      try (exists evs; repeat split; [done|lia..]).
    destruct (run_sql env s (op_query op)) as [df|e]; cbn [snd];
      exists (evs ++ [EvSql s (op_query op)]); cbn; rewrite Ht, <- app_assoc;
      rewrite !count_app; cbn; repeat split; lia.
Qed.

Lemma bd_search_section w a b : bounded 1 1 1 (search_section w a b).
Proof.
  unfold search_section.
  destruct (search_button w || truthy a && truthy b);
    [|apply (bd_weaken _ 0 0 0); [lia..|by apply bd_still]].
  apply (bd_bind _ _ 1 1 1 0 0 0); [apply (bd_call (SearchCards a b))|]. intros df.
  destruct (negb (df_empty df)); [|apply bd_message].
  destruct (table_event w df) as [| |id]; [by apply bd_still|apply bd_message|].
  apply (bd_bind _ _ 0 0 0 0 0 0); [apply bd_read_selected|]. intros sel.
  destruct (decide (sel = id)); [apply bd_message|].
  apply (bd_bind _ _ 0 0 0 0 0 0); [by apply bd_still|]. intros ?.
  apply (bd_bind _ _ 0 0 0 0 0 0); [apply bd_message|]. intros ?. by apply bd_still.
Qed.

Lemma bd_price_section w : bounded 1 1 1 (price_section w).
Proof.
  unfold price_section.
  apply (bd_bind _ _ 0 0 0 1 1 1); [apply bd_read_selected|]. intros sel. cbv zeta.
  apply (bd_bind _ _ 0 0 0 1 1 1).
  { by destruct (decide (card_id_input w sel = sel)); apply bd_still. }
  intros ?. destruct (truthy (card_id_input w sel));
    [|apply (bd_weaken _ 0 0 0); [lia..|apply bd_message]].
  apply (bd_bind _ _ 1 1 1 0 0 0); [apply (bd_call (GetCardPrices _))|]. intros df.
  destruct (negb (df_empty df)); [|apply bd_message].
  by destruct (prices_view w df); apply bd_still.
Qed.

Lemma bd_launch_section w : bounded 1 1 1 (launch_section w).
Proof.
  unfold launch_section.
  apply (bd_bind _ _ 1 1 1 0 0 0); [apply (bd_call GetPriceAfterLaunch)|]. intros df.
  destruct (negb (df_empty df)); [|apply bd_message].
  by destruct (launch_view w df); apply bd_still.
Qed.

(** X8: a pass, however it ends, asks for the ambient session at most
    four times (once at top level and once for each of the three operations
    that misses), constructs at most four sessions and sends at most three
    queries. *)
Theorem render_asks_little w env st :
  exists evs, trace (render w env st).2 = trace st ++ evs /\
    count is_active_attempt evs <= 4 /\
    count is_create_attempt evs <= 4 /\
    count is_sql evs <= 3.
Proof.
  assert (bounded 4 4 3 (render w)) as H; [|apply H].
  unfold render.
  apply (bd_bind _ _ 0 0 0 4 4 3).
  { apply bd_still. intros env' st'. apply started_frame. }
  intros ?.
  apply (bd_bind _ _ 1 1 0 3 3 3); [apply bd_session|].
  intros [session msg]. cbv beta iota zeta.
  apply (bd_bind _ _ 0 0 0 3 3 3); [apply bd_message|]. intros ?; cbv beta.
  apply (bd_bind _ _ 0 0 0 3 3 3); [by apply bd_still|]. intros search_term1; cbv beta.
  apply (bd_bind _ _ 0 0 0 3 3 3); [by apply bd_still|]. intros search_term2; cbv beta.
  apply (bd_bind _ _ 0 0 0 3 3 3).
  { destruct (clear_cache_button w); [|by apply bd_still].
    apply (bd_bind _ _ 0 0 0 0 0 0); [by apply bd_still|]. intros ?.
    apply (bd_bind _ _ 0 0 0 0 0 0); [apply bd_message|]. intros ?.
    by apply bd_still. }
  intros ?; cbv beta.
  apply (bd_bind _ _ 1 1 1 2 2 2); [apply bd_search_section|]. intros ?; cbv beta.
  apply (bd_bind _ _ 1 1 1 1 1 1); [apply bd_price_section|]. intros ?; cbv beta.
  apply bd_launch_section.
Qed.

(** The bound is reached: nothing is cached and the ambient session is
    missing, so that each of the four acquisitions builds a session. *)
Example render_asks_that_much :
  count is_active_attempt
    (trace (render w_default (env_credentials 0 (inl vivi_table)) st0).2) = 4 /\
  count is_create_attempt
    (trace (render w_default (env_credentials 0 (inl vivi_table)) st0).2) = 4 /\
  count is_sql
    (trace (render w_default (env_credentials 0 (inl vivi_table)) st0).2) = 3.
Proof. vm_compute. done. Qed.

(** ** Selecting a card *)

(** X9: the search section asks for a rerun only when its table is shown
    and a row is selected whose ID is not the selected card; it then
    records that ID as the selected card and writes it to the page.  In the
    pass that follows, as long as the search result is still in the cache,
    the same selection no longer asks for a rerun: the page shows the hint
    and goes on. *)
Theorem selection_rerun_settles w a b env st st' :
  search_section w a b env st = (Rerun, st') ->
  exists df st1 id,
    search_cards a b env st = (Ret df, st1) /\
    df_empty df = false /\
    table_event w df = RowSelected id /\
    selected_card_id st <> Some id /\
    st' = add_ui (UiSuccess ("✅ Selected card ID: " +:+ id))
            (set_selected (Some id) st1) /\
    forall env2,
      (forall df' ins, cache st' !! search_cards_key a b = Some (df', ins) ->
         (now env2 - ins < search_cards_ttl)%Q) ->
      search_section w a b env2 st' =
      (Ret tt,
       add_ui (UiInfo "💡 Click on any row to select that card for price tracking below") st').
Proof.
  intros H. unfold search_section in H.
  destruct (search_button w || truthy a && truthy b) eqn:G; [|done].
  rewrite bind_run in H.
  change (search_cards a b) with (call (SearchCards a b)) in *.
  destruct (call (SearchCards a b) env st) as [o st1] eqn:Hc.
  destruct (call_frame _ _ _ _ _ Hc) as (Hsel & Hnr & _).
  destruct o as [df| | |]; try done.
  destruct (negb (df_empty df)) eqn:E; [|done].
  destruct (table_event w df) as [| |id] eqn:T; try done.
  rewrite bind_run in H.
  destruct (selected_card_id st1) as [sel|] eqn:S.
  2:{ unfold read_selected in H. rewrite bind_run in H. cbn in H.
      by rewrite S in H. }
  rewrite (read_selected_run _ _ _ S) in H.
  destruct (decide (sel = id)) as [->|Hne]; [done|].
  injection H as <-.
  destruct (call_returns_entry _ _ _ _ _ Hc) as (ins & Hl & _).
  exists df, st1, id. split; [done|]. split; [by apply negb_true_iff in E|].
  split; [done|]. split; [rewrite <- Hsel; congruence|]. split; [done|].
  intros env2 Hv. unfold search_section. rewrite G, bind_run.
  change (search_cards a b) with (call (SearchCards a b)).
  match goal with |- context [call _ env2 ?s] => set (st2 := s) end.
  assert (call (SearchCards a b) env2 st2 = (Ret df, st2)) as ->.
  { apply (entry_hit _ _ _ _ ins); [done|]. by apply (Hv df ins). }
  rewrite E, T, bind_run, (read_selected_run _ st2 id eq_refl).
  by destruct (decide (id = id)).
Qed.

(** The search table of the example warehouse is shown and its first
    row is clicked while another card is selected; a minute later the
    rerun shows the table again, from the cache. *)
Lemma selection_rerun_settles_witness :
  exists df st1 id,
    search_cards "vivi" "final fantasy" (env_warehouse 0) st_other = (Ret df, st1) /\
    df_empty df = false /\
    table_event w_click df = RowSelected id /\
    selected_card_id st_other <> Some id /\
    (search_section w_click "vivi" "final fantasy" (env_warehouse 0) st_other).2 =
      add_ui (UiSuccess ("✅ Selected card ID: " +:+ id)) (set_selected (Some id) st1) /\
    search_section w_click "vivi" "final fantasy" (env_warehouse 60)
      (search_section w_click "vivi" "final fantasy" (env_warehouse 0) st_other).2 =
    (Ret tt,
     add_ui (UiInfo "💡 Click on any row to select that card for price tracking below")
       (search_section w_click "vivi" "final fantasy" (env_warehouse 0) st_other).2).
Proof.
  destruct (selection_rerun_settles w_click "vivi" "final fantasy"
              (env_warehouse 0) st_other
              (search_section w_click "vivi" "final fantasy" (env_warehouse 0) st_other).2
              eq_refl)
    as (df & st1 & id & H1 & H2 & H3 & H4 & H5 & H6).
  exists df, st1, id. repeat (split; [assumption|]).
  apply H6. intros df' ins H. vm_compute in H. injection H as _ <-. reflexivity.
Defined.

(** ** The Card ID box *)

(** X10: whatever the price section does afterwards, the selected card
    of the session state is, when the section ends, the content of the Card
    ID box; with an empty box the section looks nothing up, sends nothing
    and shows the request to enter a card ID. *)
Theorem price_section_follows_the_box w env st sel :
  selected_card_id st = Some sel ->
  selected_card_id (price_section w env st).2 = Some (card_id_input w sel) /\
  (truthy (card_id_input w sel) = false ->
     (price_section w env st).1 = Ret tt /\
     cache (price_section w env st).2 = cache st /\
     trace (price_section w env st).2 = trace st /\
     ui (price_section w env st).2 =
       ui st ++ [UiInfo "Please enter a card ID to view price data."]).
Proof.
  intros Hs. unfold price_section.
  rewrite bind_run, (read_selected_run _ _ _ Hs). cbv beta iota zeta.
  rewrite bind_run.
  set (cid := card_id_input w sel).
  set (st1 := if decide (cid = sel) then st else set_selected (Some cid) st).
  assert ((if decide (cid = sel) then mret tt else modify (set_selected (Some cid)))
            env st = (Ret tt, st1)) as ->.
  { unfold st1. by destruct (decide (cid = sel)). }
  assert (selected_card_id st1 = Some cid /\ cache st1 = cache st /\
          trace st1 = trace st /\ ui st1 = ui st) as (H1 & H2 & H3 & H4).
  { unfold st1. destruct (decide (cid = sel)) as [->|]; by rewrite ?Hs. }
  destruct (truthy cid) eqn:Ht.
  - split; [|done]. rewrite bind_run.
    change (get_card_prices cid) with (call (GetCardPrices cid)).
    destruct (call (GetCardPrices cid) env st1) as [o st2] eqn:Hc.
    destruct (call_frame _ _ _ _ _ Hc) as (Hsel & _). rewrite H1 in Hsel.
    destruct o as [df| | |]; try done.
    destruct (negb (df_empty df)); [|done].
    by destruct (prices_view w df).
  - split; [done|]. intros _. cbn. by rewrite H2, H3, H4.
Qed.

Lemma price_section_follows_the_box_witness :
  selected_card_id
    (price_section w_typed (env_ambient 0 (inl vivi_table)) st_other).2 =
  Some (card_id_input w_typed "another-card").
Proof.
  apply (price_section_follows_the_box w_typed (env_ambient 0 (inl vivi_table))
           st_other "another-card"). reflexivity.
Defined.

(** ** The minimal page *)

Lemma session_sql_run session q env st :
  session_sql session q env st = (Ret (run_sql env session q), add_event (EvSql session q) st).
Proof. reflexivity. Qed.

Lemma minimal_search_block w session env st :
  exists st', Minimal.search_block w session env st = (Ret tt, st') /\
    trace st' = trace st ++
      (if Minimal.search_button w ||
          (truthy (Minimal.search_term1 w) && truthy (Minimal.search_term2 w))
       then [EvSql session
               (Minimal.search_query (Minimal.search_term1 w) (Minimal.search_term2 w))]
       else []) /\
    cache st' = cache st /\
    selected_card_id st' = selected_card_id st.
Proof.
  unfold Minimal.search_block.
  destruct (Minimal.search_button w || _).
  - rewrite bind_run, session_sql_run.
    destruct (run_sql env session _) as [df|e]; [|by eexists].
    destruct (negb (df_empty df)); [|by eexists].
    destruct (Minimal.table_view w df); by eexists.
  - exists st. by rewrite app_nil_r.
Qed.

Lemma minimal_price_block w session env st :
  exists st', Minimal.price_block w session env st = (Ret tt, st') /\
    trace st' = trace st ++
      (if truthy (Minimal.card_id w)
       then [EvSql session (Minimal.prices_query (Minimal.card_id w))]
       else []) /\
    cache st' = cache st /\
    selected_card_id st' = selected_card_id st.
Proof.
  unfold Minimal.price_block.
  destruct (truthy (Minimal.card_id w)).
  - rewrite bind_run, session_sql_run.
    destruct (run_sql env session _) as [df|e]; [|by eexists].
    destruct (negb (df_empty df)); [|by eexists].
    destruct (Minimal.prices_view w df); by eexists.
  - eexists. split; [done|]. cbn. by rewrite app_nil_r.
Qed.

(** X11: the minimal page has no fallback: without an ambient session
    the pass ends in the exception of line 15, having sent no query, built
    no session and written no message, even where the secrets would open a
    session. *)
Theorem minimal_needs_ambient_session w env st :
  active_session env = None ->
  Minimal.render w env st = (Crash, add_event EvGetActive st) /\
  count is_create_attempt (new_events st (Minimal.render w env st).2) = 0 /\
  count is_sql (new_events st (Minimal.render w env st).2) = 0 /\
  ui (Minimal.render w env st).2 = ui st.
Proof.
  intros Ha.
  assert (Minimal.render w env st = (Crash, add_event EvGetActive st)) as ->.
  { unfold Minimal.render, get_active_session.
    unfold mbind, app_bind, modify, ask, mret, app_ret. cbn. by rewrite Ha. }
  split; [done|]. cbn [snd]. by rewrite (new_events_app _ _ [EvGetActive]).
Qed.

Lemma minimal_needs_ambient_session_witness :
  Minimal.render w_minimal (env_credentials 0 (inl vivi_table)) st0 =
    (Crash, add_event EvGetActive st0) /\
  count is_create_attempt
    (new_events st0 (Minimal.render w_minimal (env_credentials 0 (inl vivi_table)) st0).2) = 0 /\
  count is_sql
    (new_events st0 (Minimal.render w_minimal (env_credentials 0 (inl vivi_table)) st0).2) = 0 /\
  ui (Minimal.render w_minimal (env_credentials 0 (inl vivi_table)) st0).2 = ui st0.
Proof.
  apply (minimal_needs_ambient_session w_minimal
           (env_credentials 0 (inl vivi_table)) st0). reflexivity.
Defined.

(** X12: with an ambient session the minimal page always runs to its
    last line, because every query and every display sits in a [try]; it
    sends its search query when the button is pressed or both terms are
    filled in, and its price query when the Card ID box is filled in, with
    the session of line 15, in every pass anew: nothing is read from or
    written to a cache. *)
Theorem minimal_pass_sends_its_queries w env st s :
  active_session env = Some s ->
  exists st', Minimal.render w env st = (Ret tt, st') /\
    new_events st st' = EvGetActive :: minimal_queries w s /\
    cache st' = cache st /\
    selected_card_id st' = selected_card_id st.
Proof.
  intros Ha. unfold Minimal.render. rewrite bind_run.
  assert (get_active_session env st = (Ret (Some s), add_event EvGetActive st)) as ->.
  { unfold get_active_session, mbind, app_bind, modify, ask, mret, app_ret.
    cbn. by rewrite Ha. }
  rewrite bind_run.
  destruct (minimal_search_block w s env (add_event EvGetActive st))
    as (st1 & -> & Ht1 & Hc1 & Hs1).
  destruct (minimal_price_block w s env st1) as (st2 & -> & Ht2 & Hc2 & Hs2).
  exists st2. split; [done|]. split; [|by rewrite Hc2, Hc1, Hs2, Hs1].
  apply new_events_app. rewrite Ht2, Ht1. cbn [trace add_event].
  unfold minimal_queries. by rewrite <- !app_assoc.
Qed.

Lemma minimal_pass_sends_its_queries_witness :
  exists st', Minimal.render w_minimal (env_ambient 0 (inr "SQL compilation error")) st0 =
      (Ret tt, st') /\
    new_events st0 st' = EvGetActive :: minimal_queries w_minimal ambient /\
    cache st' = cache st0 /\
    selected_card_id st' = selected_card_id st0.
Proof.
  apply (minimal_pass_sends_its_queries w_minimal
           (env_ambient 0 (inr "SQL compilation error")) st0 ambient). reflexivity.
Defined.

(** ** Letter case of the search terms *)

(** [search_cards] takes its arguments as they come: the upper-case
    search has a key of its own, misses the entry the lower-case search
    left, and sends its SQL again. *)
Lemma search_cards_is_case_sensitive :
  search_cards_key "VIVI" "FINAL" <> search_cards_key "vivi" "final" /\
  cache_read search_cards_ttl 0 (search_cards_key "VIVI" "FINAL")
    (cache (search_cards "vivi" "final" (env_ambient 0 (inl vivi_table)) st0).2) = None /\
  trace (search_cards "VIVI" "FINAL" (env_ambient 0 (inl vivi_table))
           (search_cards "vivi" "final" (env_ambient 0 (inl vivi_table)) st0).2).2 =
  [EvGetActive; EvSql ambient (search_query "vivi" "final");
   EvGetActive; EvSql ambient (search_query "VIVI" "FINAL")].
Proof. split; [done|]. split; reflexivity. Qed.

Lemma bind_keeps {A B} (m : App A) (f : A -> App B) env st k :
  is_Some (cache (m env st).2 !! k) ->
  (forall a, keeps_entries (f a)) ->
  is_Some (cache ((m ≫= f) env st).2 !! k).
Proof.
  intros Hm Hf. rewrite bind_run.
  destruct (m env st) as [[a| | |] st1]; cbn [snd] in *; try done.
  by apply Hf.
Qed.

Lemma bind_sent {A B} (m : App A) (f : A -> App B) env st e :
  e ∈ trace (m env st).2 ->
  (forall a, appends (f a)) ->
  e ∈ trace ((m ≫= f) env st).2.
Proof.
  intros Hm Hf. rewrite bind_run.
  destruct (m env st) as [[a| | |] st1]; cbn [snd] in *; try done.
  destruct (Hf a env st1) as [evs ->]. set_solver.
Qed.

(** A search that runs leaves its result under the key of its arguments,
    and has sent the query of its arguments if the cache did not serve
    it. *)
Lemma search_section_runs w a b env st :
  session_available env ->
  search_button w || (truthy a && truthy b) = true ->
  is_Some (cache (search_section w a b env st).2 !! search_cards_key a b) /\
  (cache_read search_cards_ttl (now env) (search_cards_key a b) (cache st) = None ->
   exists s, EvSql s (search_query a b) ∈ trace (search_section w a b env st).2).
Proof.
  intros Ha Hg. unfold search_section. rewrite Hg, bind_run.
  change (search_cards a b) with (call (SearchCards a b)).
  destruct (call (SearchCards a b) env st) as [o st3] eqn:Hc.
  assert (exists df, o = Ret df) as [df ->].
  { destruct (cache_read (op_ttl (SearchCards a b)) (now env)
                (op_key (SearchCards a b)) (cache st)) as [d|] eqn:Hr.
    - rewrite (call_hit _ _ _ _ Hr) in Hc. injection Hc as <- <-. by exists d.
    - rewrite (call_miss _ _ _ Hr), op_body_run in Hc.
      destruct (session_available_returns env st Ha) as (s & lbl & st1 & Hs).
      rewrite Hs in Hc.
      destruct (run_sql env s _); injection Hc as <- <-; by eexists. }
  destruct (call_returns_entry _ _ _ _ _ Hc) as (ins & Hl & _).
  assert (cache_read search_cards_ttl (now env) (search_cards_key a b) (cache st) = None ->
          exists s, EvSql s (search_query a b) ∈ trace st3) as Hq.
  { intros Hr. rewrite (call_miss (SearchCards a b) _ _ Hr) in Hc.
    destruct (op_body (SearchCards a b) env st) as [[d| | |] st'] eqn:Hb; try done.
    injection Hc as <- <-.
    destruct (op_body_returns _ _ _ _ _ Hb) as (s & _ & st1 & _ & Ht & _).
    exists s. cbn. rewrite Ht. set_solver. }
  match goal with |- is_Some (cache ?r.2 !! _) /\ _ =>
    assert (cache r.2 = cache st3 /\ trace r.2 = trace st3) as [E1 E2] end.
  { destruct (negb (df_empty df)); [|done].
    destruct (table_event w df) as [| |id]; try done.
    rewrite bind_run. unfold read_selected. rewrite bind_run. cbn [get_state].
    cbv beta iota. destruct (selected_card_id st3) as [sel|]; [|done].
    cbn [mret app_ret]. cbv beta iota. by destruct (decide (sel = id)). }
  rewrite E1, E2. split; [by eexists|done].
Qed.

Lemma render_with_terms w a b env st :
  py_lower env a = py_lower env (search_term1_raw w) ->
  py_lower env b = py_lower env (search_term2_raw w) ->
  render (with_terms a b w) env st = render w env st.
Proof.
  intros Ha Hb. unfold render. rewrite !(bind_run init_session_state).
  unfold init_session_state at 1 2, modify at 1 2. cbv beta iota.
  rewrite !(bind_run get_snowflake_session).
  destruct (get_snowflake_session env (started st)) as [[[s msg]| | |] st1];
    try reflexivity.
  cbv beta iota zeta. rewrite !(bind_run (st_success msg)).
  cbn [st_success modify]. cbv beta iota.
  rewrite !(bind_run (str_lower _)), !str_lower_run. cbv beta iota.
  rewrite !(bind_run (str_lower _)), !str_lower_run. cbv beta iota.
  cbn [with_terms search_term1_raw search_term2_raw clear_cache_button].
  by rewrite Ha, Hb.
Qed.

(** C1, as the script has it: the page applies [str.lower()] to the two
    search boxes before it calls [search_cards].  Two passes whose boxes
    have the same lower-cased texts therefore behave alike on every state;
    and a pass that gets to search leaves its result in the cache under
    the key of the lower-cased texts, and has sent the query of the
    lower-cased texts when the cache did not serve that key. *)
Theorem render_lower_cases_search_terms w a b env st :
  py_lower env a = py_lower env (search_term1_raw w) ->
  py_lower env b = py_lower env (search_term2_raw w) ->
  render (with_terms a b w) env st = render w env st /\
  (session_available env ->
   clear_cache_button w = false ->
   search_button w ||
     (truthy (py_lower env (search_term1_raw w)) &&
      truthy (py_lower env (search_term2_raw w))) = true ->
   is_Some (cache (render (with_terms a b w) env st).2
              !! search_cards_key (py_lower env (search_term1_raw w))
                   (py_lower env (search_term2_raw w))) /\
   (cache_read search_cards_ttl (now env)
      (search_cards_key (py_lower env (search_term1_raw w))
         (py_lower env (search_term2_raw w))) (cache st) = None ->
    exists s,
      EvSql s (search_query (py_lower env (search_term1_raw w))
                 (py_lower env (search_term2_raw w)))
      ∈ trace (render (with_terms a b w) env st).2)).
Proof.
  intros Ha Hb. split; [by apply render_with_terms|].
  intros Hav Hc Hg. rewrite (render_with_terms _ _ _ _ _ Ha Hb).
  set (t1 := py_lower env (search_term1_raw w)) in *.
  set (t2 := py_lower env (search_term2_raw w)) in *.
  assert (exists st2, cache st2 = cache st /\
            render w env st =
            (search_section w t1 t2 ≫=
               fun _ => price_section w ≫= fun _ => launch_section w) env st2)
    as (st2 & Hcache & ->).
  { destruct (session_available_returns env (started st) Hav) as (s & msg & st1 & Hs).
    exists (add_ui (UiSuccess msg) st1). split.
    - destruct (session_frame _ _ _ _ Hs) as (E & _).
      destruct (started_frame st) as (E' & _). cbn. by rewrite E, E'.
    - unfold render. rewrite bind_run.
      unfold init_session_state at 1, modify at 1. cbv beta iota.
      rewrite bind_run, Hs. cbv beta iota zeta.
      rewrite bind_run. cbn [st_success modify]. cbv beta iota.
      rewrite bind_run, str_lower_run, bind_run, str_lower_run. cbv beta iota.
      fold t1 t2. rewrite Hc. by rewrite (bind_run (mret tt)). }
  destruct (search_section_runs w t1 t2 env st2 Hav Hg) as [Hk Hq].
  assert (forall x : unit, keeps_entries (price_section w ≫= fun _ => launch_section w))
    as Hke.
  { intros _. apply ke_bind; [apply ke_price_section|]. intros _.
    apply ke_launch_section. }
  assert (forall x : unit, appends (price_section w ≫= fun _ => launch_section w))
    as Hap.
  { intros _. apply appends_bind; [apply appends_price_section|]. intros _.
    apply appends_launch_section. }
  split.
  - by apply bind_keeps.
  - intros Hr. rewrite <- Hcache in Hr. destruct (Hq Hr) as [s' Hs'].
    exists s'. by apply bind_sent.
Qed.

(** Typed in capitals on the opening page, the search is stored under
    the lower-case key and the lower-case query is sent. *)
Lemma render_lower_cases_search_terms_witness :
  render (with_terms "VIVI" "Final Fantasy" w_page) (env_warehouse 0) st0 =
    render w_page (env_warehouse 0) st0 /\
  is_Some (cache (render (with_terms "VIVI" "Final Fantasy" w_page)
                    (env_warehouse 0) st0).2
             !! search_cards_key "vivi" "final fantasy") /\
  exists s, EvSql s (search_query "vivi" "final fantasy")
    ∈ trace (render (with_terms "VIVI" "Final Fantasy" w_page) (env_warehouse 0) st0).2.
Proof.
  destruct (render_lower_cases_search_terms w_page "VIVI" "Final Fantasy"
              (env_warehouse 0) st0 eq_refl eq_refl) as [H1 H2].
  split; [exact H1|].
  destruct H2 as [H2 H3]; [left; by eexists|reflexivity|reflexivity|].
  split; [exact H2|]. apply H3. reflexivity.
Defined.

(** The first pass stores the table; the next, typed in another casing,
    shows it without asking the warehouse. *)
Example other_casing_hits :
  count is_sql
    (new_events (render w_page (env_warehouse 0) st0).2
       (render (with_terms "Vivi" "FINAL FANTASY" w_page) (env_warehouse 60)
          (render w_page (env_warehouse 0) st0).2).2) = 0 /\
  (render (with_terms "Vivi" "FINAL FANTASY" w_page) (env_warehouse 60)
     (render w_page (env_warehouse 0) st0).2).1 = Ret tt.
Proof. vm_compute. done. Qed.
